(** * rtsp-health-checker: a shallow embedding of the health-check agent

    The development follows [rtsp-agents/rtsp-health-checker.py].  The
    script talks to three outside parties: the inventory service (HTTP), the
    camera (OpenCV) and the local disk.  Their answers are not in our hands,
    so they enter the model through a [Runtime]: a hidden state [W] and one
    transition function per library call.  Everything the script itself
    decides (what it asks, in which order, what it writes and what it does
    with an exception) is plain Rocq code over a small state/error/trace
    monad. *)

From Stdlib Require Import ZArith Bool.
From stdpp Require Import gmap strings list fin_maps pretty.

Local Open Scope string_scope.

(** ** Python values as the script meets them

    Every value that crosses the script comes out of [resp.json()] or is a
    dictionary literal built from such values.  Numbers are kept as integers
    (the script never computes with them). *)

Local Unset Elimination Schemes.
Inductive json :=
| JNull
| JBool (b : bool)
| JNum (n : Z)
| JStr (s : string)
| JArr (l : list json)
| JObj (d : list (string * json)).
Local Set Elimination Schemes.

(** A Python [dict] with string keys, in insertion order. *)
Abbreviation dict := (list (string * json)).

(** Python's [None]. *)
Definition None_ : json := JNull.

(** [bool(v)], the test behind [if v:] and [a and b]. *)
Definition truthy (v : json) : bool :=
  match v with
  | JNull => false
  | JBool b => b
  | JNum n => negb (n =? 0)%Z
  | JStr s => negb (String.eqb s EmptyString)
  | JArr l => match l with [] => false | _ => true end
  | JObj d => match d with [] => false | _ => true end
  end.

Fixpoint dict_get (k : string) (d : dict) : option json :=
  match d with
  | [] => None
  | (k', v) :: d' => if String.eqb k k' then Some v else dict_get k d'
  end.

Definition dict_has (k : string) (d : dict) : bool :=
  match dict_get k d with Some _ => true | None => false end.

(** [d[k] = v]: replaces the binding in place, or appends a new one. *)
Fixpoint dict_set (k : string) (v : json) (d : dict) : dict :=
  match d with
  | [] => [(k, v)]
  | (k', v') :: d' =>
      if String.eqb k k' then (k', v) :: d' else (k', v') :: dict_set k v d'
  end.

(** ** Exceptions and results *)

Inductive exn :=
| Exception (msg : string)
| KeyError (key : string)
| TypeError (msg : string)
| LibraryError (origin : string).   (* OSError, cv2.error, requests errors, JSONDecodeError *)

Inductive result (A : Type) :=
| Ok (a : A)
| Raise (e : exn).
Arguments Ok {A} a.
Arguments Raise {A} e.

Definition is_raise {A} (r : result A) : bool :=
  match r with Ok _ => false | Raise _ => true end.

(** [v[k]] for a string key [k]. *)
Definition subscript (v : json) (k : string) : result json :=
  match v with
  | JObj d => match dict_get k d with
              | Some x => Ok x
              | None => Raise (KeyError k)
              end
  | JArr _ => Raise (TypeError "list indices must be integers or slices, not str")
  | JStr _ => Raise (TypeError "string indices must be integers")
  | _ => Raise (TypeError "object is not subscriptable")
  end.

Fixpoint chars (s : string) : list json :=
  match s with
  | EmptyString => []
  | String c s' => JStr (String c EmptyString) :: chars s'
  end.

(** The elements [enumerate(v)] walks through. *)
Definition py_iter (v : json) : result (list json) :=
  match v with
  | JArr l => Ok l
  | JObj d => Ok (map (fun kv => JStr (fst kv)) d)
  | JStr s => Ok (chars s)
  | _ => Raise (TypeError "object is not iterable")
  end.

(** [len(v)]. *)
Definition py_len (v : json) : result nat :=
  match v with
  | JArr l => Ok (length l)
  | JObj d => Ok (length d)
  | JStr s => Ok (String.length s)
  | _ => Raise (TypeError "object has no len()")
  end.

(** ** Module constants *)

Definition DEFAULT_OUTPUT_DIR := "health-check".
Definition DEFAULT_SLEEP_TIMER_IN_SECONDS := 10%Z.
Definition DEFAULT_RTSP_BACKEND_URL := "http://10.8.0.1:8080".
Definition DEFAULT_THREAD_LIMIT := 50%Z.

Definition camera_statuses : list string :=
  ["OPEN"; "UNAUTHORIZED"; "NOT_FOUND"; "UNCONNECTED"].

(** ** The outside world *)

(** What the script looks at in a [requests] response. *)
Record response := Response {
  resp_ok : bool;
  resp_status_code : Z;
  resp_text : string;
  resp_json : result json        (* [resp.json()]; raises on a malformed body *)
}.

Class Runtime := {
  W : Type;                      (* hidden state of network, cameras and disk *)
  frame : Type;                  (* a decoded video frame *)
  (* [session.get(url)] *)
  session_get : string -> W -> result response * W;
  (* [requests.put(url, json=body)] *)
  requests_put : string -> json -> W -> result response * W;
  (* [cv2.VideoCapture(url).read()] *)
  capture_read : json -> W -> result (bool * frame) * W;
  (* [cv2.imwrite(path, frame)]: [Ok true] when the file was written,
     [Ok false] when OpenCV gave up without raising *)
  cv2_imwrite : string -> frame -> W -> result bool * W;
  (* does [open(path, "rb")] + [read()] of an existing file fail? *)
  open_rb_fault : string -> W -> option exn * W;
  (* does [open(path, "w")] fail? *)
  open_w_fault : string -> W -> option exn * W;
  (* does writing the dumped text fail? *)
  write_fault : string -> W -> option exn * W;
  (* the bytes [cv2.imwrite] stores for a frame *)
  imencode : frame -> string;
  (* [base64.b64encode(bytes).decode("utf-8")] *)
  b64encode : string -> string;
  (* the text [json.dump] produces *)
  json_dumps : json -> string;
  (* [str(v)], as used by f-strings *)
  py_str : json -> string
}.

(** ** Command-line options and module globals *)

Record Options := {
  opt_rtsp_backend_url : string;
  opt_health_check : bool;
  opt_daemon : bool;
  opt_sleep_timer : Z;
  opt_output : string;
  opt_threads : json
}.

(** [get_arguments()] runs twice on the same command line (at import and
    under [__main__]); one [Options] value stands for both results. *)
Definition output_dir (options : Options) : string := opt_output options.
Definition rtsp_backend_url (options : Options) : string :=
  opt_rtsp_backend_url options.

(** ** What the script does to the world *)

(** The lines the script prints, by format string and arguments. *)
Inductive message :=
| MsgExn (e : exn)                                  (* print(e) *)
| MsgStatusCode (c : Z)                             (* print(resp.status_code) *)
| MsgText (t : string)                              (* print(resp.text) *)
| MsgFound (n : nat)                                (* Found {n} cameras for the health-check *)
| MsgCompleted (id url status : json) (i n : nat)   (* Health check of the camera ... has been completed. [i/n] *)
| MsgFailed (id url status : json) (i n : nat)      (* Health check of the camera ... has failed. [i/n] *)
| MsgDownloading                                    (* Downloading a list of camera ids from the backend API *)
| MsgNoneDownloaded                                 (* No cameras have been downloaded from the backend API *)
| MsgDiscovered (n : nat)                           (* {n} camera ids have been discovered *)
| MsgAsking (i n : nat)                             (* Asking the backend API about the camera [i/n] *)
| MsgNonePassed                                     (* No cameras have been passed for the health-check. *)
| MsgStarting                                       (* Starting the health-check daemon *)
| MsgSleeping (t : Z).                              (* Sleeping for {t} seconds *)

Section Effects.
Context `{RT : Runtime}.

Inductive event :=
| EvPrint (m : message)
| EvGet (url : string)
| EvPut (url : string) (body : json)
| EvCapture (url : json)
| EvImwrite (path : string) (fr : frame)
| EvOpenRead (path : string)
| EvOpenWrite (path : string)
| EvDump (path : string) (content : json)
| EvSleep (seconds : Z).

Record state := State {
  world : W;
  files : gmap string string       (* the disk: path to contents *)
}.

(** A computation runs from a state, ends normally or with an exception,
    and leaves a state and the events it caused, oldest first. *)
Definition M (A : Type) : Type := state -> result A * state * list event.

Definition ret {A} (a : A) : M A := fun s => (Ok a, s, []).

Definition raise {A} (e : exn) : M A := fun s => (Raise e, s, []).

Definition bind {A B} (m : M A) (k : A -> M B) : M B :=
  fun s =>
    match m s with
    | (Ok a, s1, t1) =>
        match k a s1 with (r, s2, t2) => (r, s2, (t1 ++ t2)%list) end
    | (Raise e, s1, t1) => (Raise e, s1, t1)
    end.

(** [try: m  except Exception as e: h e] *)
Definition try_except {A} (m : M A) (h : exn -> M A) : M A :=
  fun s =>
    match m s with
    | (Ok a, s1, t1) => (Ok a, s1, t1)
    | (Raise e, s1, t1) =>
        match h e s1 with (r, s2, t2) => (r, s2, (t1 ++ t2)%list) end
    end.

Definition lift {A} (r : result A) : M A :=
  match r with Ok a => ret a | Raise e => raise e end.

Definition emit (ev : event) : M unit := fun s => (Ok tt, s, [ev]).

Definition print (m : message) : M unit := emit (EvPrint m).

(** A library call that may raise: the world answers and moves on. *)
Definition ask {A} (f : W -> result A * W) : M A :=
  fun s =>
    match f (world s) with
    | (r, w) => (r, State w (files s), [])
    end.

(** A library call that either fails or returns nothing of interest. *)
Definition check (f : W -> option exn * W) : M unit :=
  fun s =>
    match f (world s) with
    | (Some e, w) => (Raise e, State w (files s), [])
    | (None, w) => (Ok tt, State w (files s), [])
    end.

Definition store (path contents : string) : M unit :=
  fun s => (Ok tt, State (world s) (<[path := contents]> (files s)), []).

Definition run_result {A} (m : M A) (s : state) : result A := fst (fst (m s)).
Definition run_state {A} (m : M A) (s : state) : state := snd (fst (m s)).
Definition run_trace {A} (m : M A) (s : state) : list event := snd (m s).

End Effects.

Declare Scope py_scope.
Delimit Scope py_scope with py.
Notation "x <- m ;; k" := (bind m (fun x => k))
  (at level 100, m at next level, k at level 200, right associativity) : py_scope.
Notation "m ;; k" := (bind m (fun _ => k))
  (at level 100, k at level 200, right associativity) : py_scope.

(** ** Library calls, as the script issues them *)

Section Calls.
Context `{RT : Runtime}.
Local Open Scope py_scope.

(** [self.session.get(url)] *)
Definition http_get (url : string) : M response :=
  emit (EvGet url) ;; ask (session_get url).

(** [requests.put(url, json=body)] *)
Definition http_put (url : string) (body : json) : M response :=
  emit (EvPut url body) ;; ask (requests_put url body).

(** [cv2.VideoCapture(url).read()] *)
Definition video_capture_read (url : json) : M (bool * frame) :=
  emit (EvCapture url) ;; ask (capture_read url).

(** [cv2.imwrite(path, fr)]; the script drops the returned flag. *)
Definition imwrite (path : string) (fr : frame) : M bool :=
  emit (EvImwrite path fr) ;;
  written <- ask (cv2_imwrite path fr) ;;
  (if written : bool then store path (imencode fr) else ret tt) ;;
  ret written.

(** [with open(path, "rb") as f: f.read()] *)
Definition read_file (path : string) : M string :=
  emit (EvOpenRead path) ;;
  fun s =>
    match files s !! path with
    | None => (Raise (LibraryError "FileNotFoundError"), s, [])
    | Some contents => (check (open_rb_fault path) ;; ret contents) s
    end.

(** [open(path, "w")]: the file exists and is empty from here on. *)
Definition open_w (path : string) : M unit :=
  emit (EvOpenWrite path) ;;
  check (open_w_fault path) ;;
  store path EmptyString.

(** [json.dump(v, f)] into the file opened at [path]. *)
Definition json_dump (path : string) (v : json) : M unit :=
  emit (EvDump path v) ;;
  check (write_fault path) ;;
  store path (json_dumps v).

End Calls.

(** ** class RtspBackendClient *)

Record backend_client := BackendClient {
  self_rtsp_backend_url : string;
  self_output_dir : string
}.

Module RtspBackendClient.
Section Methods.
Context `{RT : Runtime}.
Local Open Scope py_scope.

Definition init (rtsp_backend_url output_dir : string) : backend_client :=
  BackendClient rtsp_backend_url output_dir.

Definition get_camera (self : backend_client) (camera_id camera_rtsp_url : json)
  : M json :=
  if truthy camera_id && truthy camera_rtsp_url then
    raise (Exception "Stop doing that.")
  else
    try_except
      (let url := self_rtsp_backend_url self ++ "/cameras" in
       let url := if truthy camera_id
                  then url ++ "?id=" ++ py_str camera_id else url in
       let url := if truthy camera_rtsp_url
                  then url ++ "?rtspUrl=" ++ py_str camera_rtsp_url else url in
       resp <- http_get url ;;
       if resp_ok resp then
         lift (resp_json resp)
       else
         print (MsgStatusCode (resp_status_code resp)) ;;
         print (MsgText (resp_text resp)) ;;
         ret None_)
      (fun e => print (MsgExn e) ;; ret None_).

Definition get_all_camera_ids (self : backend_client) : M json :=
  try_except
    (let url := self_rtsp_backend_url self ++ "/cameras/ids" in
     resp <- http_get url ;;
     if resp_ok resp then
       body <- lift (resp_json resp) ;;
       lift (subscript body "cameraIds")
     else
       print (MsgStatusCode (resp_status_code resp)) ;;
       print (MsgText (resp_text resp)) ;;
       ret None_)
    (fun e => print (MsgExn e) ;; ret None_).

(** [if 'rtspUrl' in camera and 'url' not in camera:
       camera['url'] = camera['rtspUrl']] *)
Definition alias_url (camera : dict) : dict :=
  if dict_has "rtspUrl" camera && negb (dict_has "url" camera)
  then match dict_get "rtspUrl" camera with
       | Some u => dict_set "url" u camera
       | None => camera
       end
  else camera.

(** The global [rtsp_backend_url] is read from [options]; [self] has a URL
    of its own, which this method does not look at. *)
Definition update_camera (options : Options) (self : backend_client) (camera : dict)
  : M json :=
  try_except
    (let camera := alias_url camera in
     resp <- http_put (rtsp_backend_url options ++ "/cameras/import")
                      (JObj camera) ;;
     if resp_ok resp then
       lift (resp_json resp)
     else
       print (MsgStatusCode (resp_status_code resp)) ;;
       print (MsgText (resp_text resp)) ;;
       ret None_)
    (fun e => print (MsgExn e) ;; ret None_).

(** The dictionary written to [<cameraId>.json]; each field is read from
    [camera] in the order of the literal. *)
Definition camera_to_save (camera : json) (status : result json) : M json :=
  countryCode <- lift (subscript camera "countryCode") ;;
  countryName <- lift (subscript camera "countryName") ;;
  city <- lift (subscript camera "city") ;;
  rtspUrl <- lift (subscript camera "rtspUrl") ;;
  cameraId <- lift (subscript camera "cameraId") ;;
  status <- lift status ;;
  ret (JObj [("countryCode", countryCode);
             ("countryName", countryName);
             ("city", city);
             ("rtspUrl", rtspUrl);
             ("cameraId", cameraId);
             ("status", status)]).

(** [f'{self.output_dir}/{camera["cameraId"]}<ext>'] *)
Definition artifact_path (self : backend_client) (camera : json) (ext : string)
  : M string :=
  cameraId <- lift (subscript camera "cameraId") ;;
  ret (self_output_dir self ++ "/" ++ py_str cameraId ++ ext).

Definition health_check (options : Options) (self : backend_client) (camera : json)
  : M json :=
  camera_url <- lift (subscript camera "rtspUrl") ;;
  try_except
    (r <- video_capture_read camera_url ;;
     let '(is_connected, fr) := r in
     if is_connected : bool then
       img_file_name <- artifact_path self camera ".jpg" ;;
       imwrite img_file_name fr ;;
       image_bytes <- read_file img_file_name ;;
       let base64ImageData := b64encode image_bytes in
       url <- lift (subscript camera "rtspUrl") ;;
       let updated_camera :=
         [("status", JStr "OPEN");
          ("url", url);
          ("base64ImageData", JStr base64ImageData)] in
       json_file_name <- artifact_path self camera ".json" ;;
       open_w json_file_name ;;
       to_save <- camera_to_save camera
                    (subscript (JObj updated_camera) "status") ;;
       json_dump json_file_name to_save ;;
       update_camera options self updated_camera
     else
       url <- lift (subscript camera "rtspUrl") ;;
       labels <- lift (subscript camera "labels") ;;
       let updated_camera :=
         [("status", JStr "UNCONNECTED");
          ("url", url);
          ("labels", labels)] in
       json_file_name <- artifact_path self camera ".json" ;;
       open_w json_file_name ;;
       to_save <- camera_to_save camera (Ok (JStr "UNCONNECTED")) ;;
       json_dump json_file_name to_save ;;
       update_camera options self updated_camera)
    (fun e => print (MsgExn e) ;; ret None_).

End Methods.
End RtspBackendClient.

(** ** Module level: the global client and the cycle *)

Definition client (options : Options) : backend_client :=
  RtspBackendClient.init (rtsp_backend_url options) (output_dir options).

Section Cycle.
Context `{RT : Runtime}.
Local Open Scope py_scope.

(** The line printed after one camera; both branches read the same three
    fields of [camera] before formatting. *)
Definition report_line (is_updated camera : json) (i n : nat) : M unit :=
  cameraId <- lift (subscript camera "cameraId") ;;
  rtspUrl <- lift (subscript camera "rtspUrl") ;;
  status <- lift (subscript camera "status") ;;
  if truthy is_updated
  then print (MsgCompleted cameraId rtspUrl status (i + 1) n)
  else print (MsgFailed cameraId rtspUrl status (i + 1) n).

(** [for i, camera in enumerate(cameras)], from index [i] on; [n] is
    [len(cameras)] of the whole list.  It uses the global [client]. *)
Fixpoint health_check_from (options : Options) (n i : nat)
    (cameras : list json) : M unit :=
  match cameras with
  | [] => ret tt
  | camera :: rest =>
      is_updated <- RtspBackendClient.health_check options (client options) camera ;;
      report_line is_updated camera i n ;;
      health_check_from options n (S i) rest
  end.

Definition health_check (options : Options) (cameras : list json) : M unit :=
  print (MsgFound (length cameras)) ;;
  health_check_from options (length cameras) 0 cameras.

(** [for i, camera_id in enumerate(camera_ids)], collecting into [cameras]. *)
Fixpoint fetch_from (self : backend_client) (n i : nat) (camera_ids : list json)
    (cameras : list json) : M (list json) :=
  match camera_ids with
  | [] => ret cameras
  | camera_id :: rest =>
      print (MsgAsking (i + 1) n) ;;
      camera <- RtspBackendClient.get_camera self camera_id None_ ;;
      fetch_from self n (S i) rest
        (if truthy camera then (cameras ++ [camera])%list else cameras)
  end.

Definition download_cameras_and_do_health_check (options : Options)
    (client : backend_client) (threads_limit : json) : M unit :=
  print MsgDownloading ;;
  camera_ids <- RtspBackendClient.get_all_camera_ids client ;;
  (if negb (truthy camera_ids) then
     print MsgNoneDownloaded
   else
     n <- lift (py_len camera_ids) ;;
     print (MsgDiscovered n)) ;;
  ids <- lift (py_iter camera_ids) ;;
  cameras <- fetch_from client (length ids) 0 ids [] ;;
  match cameras with
  | _ :: _ => health_check options cameras
  | [] => print MsgNonePassed
  end.

(** [while True:] unrolled [cycles] times; the real loop has no exit. *)
Fixpoint daemon (options : Options) (sleep_timer : Z) (cycles : nat)
  : M unit :=
  match cycles with
  | O => ret tt
  | S cycles' =>
      download_cameras_and_do_health_check options (client options)
        (opt_threads options) ;;
      print (MsgSleeping sleep_timer) ;;
      emit (EvSleep sleep_timer) ;;
      daemon options sleep_timer cycles'
  end.

Definition main (cycles : nat) (options : Options) : M unit :=
  if opt_health_check options then
    if opt_daemon options then
      print MsgStarting ;;
      let sleep_timer := opt_sleep_timer options in
      daemon options sleep_timer cycles
    else
      download_cameras_and_do_health_check options (client options)
        (opt_threads options)
  else ret tt.

End Cycle.

(** ** A scripted runtime for concrete runs

    The world is a set of queues of prepared answers, one per library
    call; a call takes the head of its queue.  The local disk never fails
    here. *)

Module Scripted.

Record script := Script {
  get_answers : list (result response);
  put_answers : list (result response);
  read_answers : list (result (bool * string))
}.

Definition unreachable : exn := LibraryError "ConnectionError".

Definition next_get (w : script) : result response * script :=
  match get_answers w with
  | [] => (Raise unreachable, w)
  | a :: l => (a, Script l (put_answers w) (read_answers w))
  end.

Definition next_put (w : script) : result response * script :=
  match put_answers w with
  | [] => (Raise unreachable, w)
  | a :: l => (a, Script (get_answers w) l (read_answers w))
  end.

Definition next_read (w : script) : result (bool * string) * script :=
  match read_answers w with
  | [] => (Ok (false, EmptyString), w)
  | a :: l => (a, Script (get_answers w) (put_answers w) l)
  end.

Definition show (v : json) : string :=
  match v with
  | JStr s => s
  | JNum n => pretty n
  | JNull => "None"
  | JBool true => "True"
  | JBool false => "False"
  | JArr _ => "[...]"
  | JObj _ => "{...}"
  end.

#[export] Instance runtime : Runtime := {|
  W := script;
  frame := string;
  session_get := fun _ => next_get;
  requests_put := fun _ _ => next_put;
  capture_read := fun _ => next_read;
  cv2_imwrite := fun _ _ w => (Ok true, w);
  open_rb_fault := fun _ w => (None, w);
  open_w_fault := fun _ w => (None, w);
  write_fault := fun _ w => (None, w);
  imencode := fun fr => "JPEG:" ++ fr;
  b64encode := fun bytes => "b64:" ++ bytes;
  json_dumps := fun v =>
    match subscript v "status" with
    | Ok s => "status=" ++ show s
    | Raise _ => "?"
    end;
  py_str := show
|}.

Definition ok_json (v : json) : result response :=
  Ok (Response true 200 EmptyString (Ok v)).

Definition not_found : result response :=
  Ok (Response false 404 "not found" (Raise (LibraryError "JSONDecodeError"))).

Definition camera (id : Z) (url : string) : json :=
  JObj [("cameraId", JNum id); ("rtspUrl", JStr url);
        ("countryCode", JStr "NL"); ("countryName", JStr "Netherlands");
        ("city", JStr "Delft"); ("labels", JArr []);
        ("status", JStr "OPEN")].

Definition opts (threads : json) : Options :=
  {| opt_rtsp_backend_url := DEFAULT_RTSP_BACKEND_URL;
     opt_health_check := true;
     opt_daemon := false;
     opt_sleep_timer := DEFAULT_SLEEP_TIMER_IN_SECONDS;
     opt_output := DEFAULT_OUTPUT_DIR;
     opt_threads := threads |}.

Definition start (w : script) : state := State w ∅.

(** Nothing answers: every request fails, every probe reads no frame. *)
Definition silent : script := Script [] [] [].

(** The probe of the first camera raises inside OpenCV. *)
Definition broken_probe : script :=
  Script [] [] [Raise (LibraryError "cv2.error")].

(** The first probe reads frame F1, every later probe reads nothing. *)
Definition frame_then_nothing : script :=
  Script [] [] [Ok (true, "F1")].

(** The fetch of the first id is answered with 404. *)
Definition refused_fetch : script := Script [not_found] [] [].

(** The inventory lists ids 1, 2, 3; the fetch of 2 is refused; the probe
    of camera 1 reads frame F1, the probe of camera 3 reads nothing. *)
Definition one_two_three : script :=
  Script [ok_json (JObj [("cameraIds", JArr [JNum 1; JNum 2; JNum 3])]);
          ok_json (camera 1 "rtsp://a");
          not_found;
          ok_json (camera 3 "rtsp://c")]
         [ok_json (camera 1 "rtsp://a"); ok_json (camera 3 "rtsp://c")]
         [Ok (true, "F1"); Ok (false, EmptyString)].

(** A run that starts with files already on disk. *)
Definition start_with (w : script) (disk : gmap string string) : state :=
  State w disk.

(** The inventory knows no camera. *)
Definition empty_inventory : script :=
  Script [ok_json (JObj [("cameraIds", JArr [])])] [] [].

End Scripted.

(** ** A scripted runtime with an unreliable image writer

    As [Scripted], with one more queue: the answers of [cv2.imwrite]. *)

Module Faulty.

Definition disk_script : Type := Scripted.script * list (result bool).

Definition on_script {A} (f : Scripted.script -> A * Scripted.script)
    (w : disk_script) : A * disk_script :=
  match f (fst w) with (a, sc) => (a, (sc, snd w)) end.

Definition next_imwrite (w : disk_script) : result bool * disk_script :=
  match snd w with
  | [] => (Ok true, w)
  | a :: l => (a, (fst w, l))
  end.

#[export] Instance runtime : Runtime := {|
  W := disk_script;
  frame := string;
  session_get := fun _ => on_script Scripted.next_get;
  requests_put := fun _ _ => on_script Scripted.next_put;
  capture_read := fun _ => on_script Scripted.next_read;
  cv2_imwrite := fun _ _ => next_imwrite;
  open_rb_fault := fun _ w => (None, w);
  open_w_fault := fun _ w => (None, w);
  write_fault := fun _ w => (None, w);
  imencode := fun fr => "JPEG:" ++ fr;
  b64encode := fun bytes => "b64:" ++ bytes;
  json_dumps := fun v =>
    match subscript v "status" with
    | Ok s => "status=" ++ Scripted.show s
    | Raise _ => "?"
    end;
  py_str := Scripted.show
|}.

(** The probe reads frame F2 and [cv2.imwrite] gives up without raising. *)
Definition frame_not_written : disk_script :=
  (Scripted.Script [] [] [Ok (true, "F2")], [Ok false]).

(** The disk holds an image of camera 1 from an earlier cycle. *)
Definition earlier_image : gmap string string :=
  {[ "health-check/1.jpg" := "JPEG:F1" ]}.

Definition start_with (w : disk_script) (disk : gmap string string)
  : state :=
  State w disk.

(** A record without location fields. *)
Definition bare_camera (id : Z) (url : string) : json :=
  JObj [("cameraId", JNum id); ("rtspUrl", JStr url);
        ("status", JStr "OPEN")].

End Faulty.

(** Does the answer to a GET leave the caller without a body?  A transport
    error, a non-success status, or a body that does not decode. *)
Definition absent_answer (a : result response) : bool :=
  match a with
  | Raise _ => true
  | Ok r => negb (resp_ok r) || is_raise (resp_json r)
  end.

(** Reading the fields of a camera record. *)
Definition has_field (camera : json) (k : string) : bool :=
  negb (is_raise (subscript camera k)).

Definition has_fields (ks : list string) (camera : json) : bool :=
  forallb (has_field camera) ks.

Definition field (camera : json) (k : string) : json :=
  match subscript camera k with Ok v => v | Raise _ => None_ end.

(** The URL [get_camera] asks when only an id is passed. *)
Definition fetch_url `{RT : Runtime} (self : backend_client) (camera_id : json)
  : string :=
  if truthy camera_id
  then (self_rtsp_backend_url self ++ "/cameras") ++ "?id=" ++ py_str camera_id
  else self_rtsp_backend_url self ++ "/cameras".

(** The local disk does what it is asked: [cv2.imwrite] writes the file,
    [open] and the write of the dumped text succeed. *)
Definition disk_healthy `{RT : Runtime} : Prop :=
  (forall path fr w, fst (cv2_imwrite path fr w) = Ok true)
  /\ (forall path w, fst (open_rb_fault path w) = None)
  /\ (forall path w, fst (open_w_fault path w) = None)
  /\ (forall path w, fst (write_fault path w) = None).

(** The two artifact paths of a camera, [<output_dir>/<cameraId>.jpg] and
    [<output_dir>/<cameraId>.json]. *)
Definition image_path `{RT : Runtime} (self : backend_client) (camera : json)
  : string :=
  self_output_dir self ++ "/" ++ py_str (field camera "cameraId") ++ ".jpg".

Definition metadata_path `{RT : Runtime} (self : backend_client)
    (camera : json) : string :=
  self_output_dir self ++ "/" ++ py_str (field camera "cameraId") ++ ".json".

(** The dictionary literals of [health_check], for a record that has the
    fields they read. *)
Definition metadata (camera : json) (status : string) : json :=
  JObj [("countryCode", field camera "countryCode");
        ("countryName", field camera "countryName");
        ("city", field camera "city");
        ("rtspUrl", field camera "rtspUrl");
        ("cameraId", field camera "cameraId");
        ("status", JStr status)].

Definition open_report `{RT : Runtime} (camera : json) (fr : frame) : json :=
  JObj [("status", JStr "OPEN");
        ("url", field camera "rtspUrl");
        ("base64ImageData", JStr (b64encode (imencode fr)))].

Definition unconnected_report (camera : json) : json :=
  JObj [("status", JStr "UNCONNECTED");
        ("url", field camera "rtspUrl");
        ("labels", field camera "labels")].

(** The fields [health_check] reads when a frame was read, and when not. *)
Definition saved_fields : list string :=
  ["rtspUrl"; "cameraId"; "countryCode"; "countryName"; "city"].

Definition record_fields : list string :=
  ["rtspUrl"; "cameraId"; "countryCode"; "countryName"; "city"; "labels"].

(** The same options with another [--threads] value. *)
Definition set_threads (threads : json) (options : Options) : Options :=
  {| opt_rtsp_backend_url := opt_rtsp_backend_url options;
     opt_health_check := opt_health_check options;
     opt_daemon := opt_daemon options;
     opt_sleep_timer := opt_sleep_timer options;
     opt_output := opt_output options;
     opt_threads := threads |}.

(** What the caller of a request method gets out of the answer: the
    decoded body of a successful response, [None] otherwise. *)
Definition decoded (a : result response) : json :=
  match a with
  | Ok r =>
      if resp_ok r
      then match resp_json r with Ok v => v | Raise _ => None_ end
      else None_
  | Raise _ => None_
  end.

(** ... and out of the answer to the listing: the [cameraIds] member. *)
Definition listed (a : result response) : json :=
  match subscript (decoded a) "cameraIds" with
  | Ok v => v
  | Raise _ => None_
  end.

(** The URL [get_camera] asks, for any pair of arguments. *)
Definition query_url `{RT : Runtime} (self : backend_client)
    (camera_id camera_rtsp_url : json) : string :=
  let url := self_rtsp_backend_url self ++ "/cameras" in
  let url := if truthy camera_id
             then url ++ "?id=" ++ py_str camera_id else url in
  if truthy camera_rtsp_url
  then url ++ "?rtspUrl=" ++ py_str camera_rtsp_url else url.

(** ** Properties of runs and of their events *)

Section Observations.
Context `{RT : Runtime}.

(** Every event of every run satisfies [P]. *)
Definition emits {A} (P : event -> Prop) (m : M A) : Prop :=
  forall s, Forall P (run_trace m s).

(** Every normal return value satisfies [Q]. *)
Definition returns {A} (Q : A -> Prop) (m : M A) : Prop :=
  forall s a, run_result m s = Ok a -> Q a.

(** No run ends with an exception. *)
Definition total {A} (m : M A) : Prop :=
  forall s, is_raise (run_result m s) = false.

(** The two statuses the probe tells apart. *)
Definition probe_status (v : json) : Prop :=
  subscript v "status" = Ok (JStr "OPEN")
  \/ subscript v "status" = Ok (JStr "UNCONNECTED").

(** A metadata write or a report carries one of them. *)
Definition carries_probe_status (ev : event) : Prop :=
  match ev with
  | EvDump _ v | EvPut _ v => probe_status v
  | _ => True
  end.

(** ... and that status is a member of [camera_statuses]. *)
Definition carries_listed_status (ev : event) : Prop :=
  match ev with
  | EvDump _ v | EvPut _ v =>
      probe_status v
      /\ (exists st, subscript v "status" = Ok (JStr st)
                     /\ In st camera_statuses)
  | _ => True
  end.

(** The probe attempts and the per-camera verdict lines of a trace. *)
Definition capture_of (ev : event) : option json :=
  match ev with EvCapture url => Some url | _ => None end.

Definition verdict_of (ev : event) : option nat :=
  match ev with
  | EvPrint (MsgCompleted _ _ _ i _) | EvPrint (MsgFailed _ _ _ i _) => Some i
  | _ => None
  end.

(** Neither a probe attempt nor a verdict line. *)
Definition quiet (ev : event) : Prop :=
  match ev with
  | EvCapture _ => False
  | EvPrint (MsgCompleted _ _ _ _ _) | EvPrint (MsgFailed _ _ _ _ _) => False
  | _ => True
  end.

(** The camera a verdict line describes: id, URL and status as printed. *)
Definition verdict_shown (ev : event) : option (json * json * json) :=
  match ev with
  | EvPrint (MsgCompleted id url status _ _)
  | EvPrint (MsgFailed id url status _ _) => Some (id, url, status)
  | _ => None
  end.

(** The requests for records and the pauses of a trace. *)
Definition get_of (ev : event) : option string :=
  match ev with EvGet url => Some url | _ => None end.

Definition sleep_of (ev : event) : option Z :=
  match ev with EvSleep seconds => Some seconds | _ => None end.

(** What the first half of a cycle consists of: output and GETs ... *)
Definition asks_only (ev : event) : Prop :=
  match ev with EvPrint _ | EvGet _ => True | _ => False end.

(** ... and the second half: anything but GETs and pauses. *)
Definition probes_only (ev : event) : Prop :=
  match ev with EvGet _ | EvSleep _ => False | _ => True end.

(** A run in two phases: first events of [P], then events of [Q]. *)
Definition phased {A} (P Q : event -> Prop) (m : M A) : Prop :=
  forall s, exists t1 t2,
    run_trace m s = (t1 ++ t2)%list /\ Forall P t1 /\ Forall Q t2.

Definition never_sleeps (ev : event) : Prop :=
  match ev with EvSleep _ => False | _ => True end.

(** The paths [<dir>/<name>.jpg] and [<dir>/<name>.json]. *)
Definition artifact_of (dir : string) (path : string) : Prop :=
  exists name, path = dir ++ "/" ++ name ++ ".jpg"
               \/ path = dir ++ "/" ++ name ++ ".json".

(** Every run leaves the files outside [P] as they were. *)
Definition writes_within {A} (P : string -> Prop) (m : M A) : Prop :=
  forall s path, ~ P path -> files (run_state m s) !! path = files s !! path.

End Observations.

(** * Reasoning about runs *)

Section Logic.
Context `{RT : Runtime}.
Local Open Scope py_scope.

Lemma run_eta {A} (m : M A) s :
  m s = (run_result m s, run_state m s, run_trace m s).
Proof. unfold run_result, run_state, run_trace. by destruct (m s) as [[? ?] ?]. Qed.

Lemma bind_ok {A B} (m : M A) (k : A -> M B) s a s1 t1 :
  m s = (Ok a, s1, t1) ->
  bind m k s = (run_result (k a) s1, run_state (k a) s1,
                (t1 ++ run_trace (k a) s1)%list).
Proof.
  intros E. unfold bind. rewrite E, (run_eta (k a) s1). reflexivity.
Qed.

(** *** [emits] *)

Lemma emits_ret {A} P (a : A) : emits P (ret a).
Proof. intros s. constructor. Qed.

Lemma emits_raise {A} P e : emits P (@raise RT A e).
Proof. intros s. constructor. Qed.

Lemma emits_lift {A} P (r : result A) : emits P (lift r).
Proof. destruct r; [apply emits_ret | apply emits_raise]. Qed.

Lemma emits_emit (P : event -> Prop) ev : P ev -> emits P (emit ev).
Proof. intros H s. by repeat constructor. Qed.

Lemma emits_ask {A} P (f : W -> result A * W) : emits P (ask f).
Proof. intros s. unfold run_trace, ask. destruct (f (world s)). constructor. Qed.

Lemma emits_check P f : emits P (check f).
Proof.
  intros s. unfold run_trace, check.
  destruct (f (world s)) as [[e|] w]; constructor.
Qed.

Lemma emits_store P path contents : emits P (store path contents).
Proof. intros s. constructor. Qed.

Lemma emits_bind_post {A B} P (Q : A -> Prop) (m : M A) (k : A -> M B) :
  emits P m -> returns Q m -> (forall a, Q a -> emits P (k a)) ->
  emits P (bind m k).
Proof.
  intros Hm HQ Hk s. specialize (Hm s). specialize (HQ s).
  unfold run_trace, run_result in *. unfold bind.
  destruct (m s) as [[[a|e] s1] t1]; simpl in *; [|done].
  specialize (Hk a (HQ a eq_refl) s1). unfold run_trace in Hk.
  destruct (k a s1) as [[r s2] t2]; simpl in *.
  by apply Forall_app.
Qed.

Lemma emits_bind {A B} P (m : M A) (k : A -> M B) :
  emits P m -> (forall a, emits P (k a)) -> emits P (bind m k).
Proof.
  intros Hm Hk. apply (emits_bind_post P (fun _ => True)); [done|done|auto].
Qed.

Lemma emits_try {A} P (m : M A) h :
  emits P m -> (forall e, emits P (h e)) -> emits P (try_except m h).
Proof.
  intros Hm Hh s. specialize (Hm s).
  unfold run_trace in *. unfold try_except.
  destruct (m s) as [[[a|e] s1] t1]; simpl in *; [done|].
  specialize (Hh e s1). unfold run_trace in Hh.
  destruct (h e s1) as [[r s2] t2]; simpl in *.
  by apply Forall_app.
Qed.

(** *** [total] *)

Lemma total_ret {A} (a : A) : total (ret a).
Proof. by intros s. Qed.

Lemma total_emit ev : total (emit ev).
Proof. by intros s. Qed.

Lemma total_bind {A B} (m : M A) (k : A -> M B) :
  total m -> (forall a, total (k a)) -> total (bind m k).
Proof.
  intros Hm Hk s. specialize (Hm s).
  unfold run_result in *. unfold bind.
  destruct (m s) as [[[a|e] s1] t1]; simpl in *; [|done].
  specialize (Hk a s1). unfold run_result in Hk.
  by destruct (k a s1) as [[r s2] t2].
Qed.

(** A handler that cannot raise makes the whole [try] total, whatever the
    body does. *)
Lemma total_try {A} (m : M A) h :
  (forall e, total (h e)) -> total (try_except m h).
Proof.
  intros Hh s. unfold run_result, try_except.
  destruct (m s) as [[[a|e] s1] t1]; simpl; [done|].
  specialize (Hh e s1). unfold run_result in Hh.
  by destruct (h e s1) as [[r s2] t2].
Qed.

End Logic.

(** Unfolds the monad and the library calls, leaving the world's answers
    as the only stuck terms. *)
Ltac run_step :=
  cbv beta iota zeta delta
    [bind try_except emit ask check store print lift ret raise
     http_get http_put video_capture_read imwrite read_file open_w json_dump
     run_result run_state run_trace];
  cbn [world files fst snd].

(** * The inventory client *)

Section ClientFacts.
Context `{RT : Runtime}.
Local Open Scope py_scope.

Lemma total_print msg : total (print msg).
Proof. apply total_emit. Qed.

(** The [except] clause shared by all four methods. *)
Lemma total_handler (e : exn) : total (print (MsgExn e) ;; ret None_).
Proof. apply total_bind; [apply total_print | intros; apply total_ret]. Qed.

(** One run of [update_camera]: a single PUT to the global URL, then at
    most some printing; the disk is left alone and nothing is raised. *)
Lemma update_camera_run options self camera s :
  exists r w' msgs,
    RtspBackendClient.update_camera options self camera s =
      (Ok r, State w' (files s),
       EvPut (rtsp_backend_url options ++ "/cameras/import")
             (JObj (RtspBackendClient.alias_url camera))
         :: map EvPrint msgs).
Proof.
  unfold RtspBackendClient.update_camera. run_step.
  destruct (requests_put _ _ (world s)) as [[resp|e] w']; simpl.
  - destruct (resp_ok resp); simpl.
    + destruct (resp_json resp) as [v|e]; simpl.
      * by exists v, w', [].
      * by exists None_, w', [MsgExn e].
    + by exists None_, w',
        [MsgStatusCode (resp_status_code resp); MsgText (resp_text resp)].
  - by exists None_, w', [MsgExn e].
Qed.

End ClientFacts.

(** C10. [update_camera] sends its PUT to the module-global
    [rtsp_backend_url] (the URL of the command-line options) followed by
    [/cameras/import]; the URL stored in the client instance plays no part:
    any two instances behave alike. *)
Theorem update_camera_uses_global_url `{RT : Runtime}
    (options : Options) (self : backend_client) (camera : dict) (s : state) :
  (exists body msgs,
     run_trace (RtspBackendClient.update_camera options self camera) s =
       EvPut (rtsp_backend_url options ++ "/cameras/import") body
         :: map EvPrint msgs)
  /\ (forall self' : backend_client,
        RtspBackendClient.update_camera options self' camera s =
        RtspBackendClient.update_camera options self camera s).
Proof.
  split.
  - destruct (update_camera_run options self camera s) as (r & w' & msgs & E).
    unfold run_trace. rewrite E. eauto.
  - intros self'. reflexivity.
Qed.

(** C9, as the code has it.  [get_camera] raises exactly when both
    arguments are truthy (neither [None], zero nor empty): it then raises
    [Exception("Stop doing that.")] before any request is made and with the
    state untouched.  On every other input it returns normally. *)
Theorem get_camera_raises_iff_both_truthy `{RT : Runtime}
    (self : backend_client) (camera_id camera_rtsp_url : json) (s : state) :
  (truthy camera_id && truthy camera_rtsp_url = true ->
     RtspBackendClient.get_camera self camera_id camera_rtsp_url s =
       (Raise (Exception "Stop doing that."), s, []))
  /\ (truthy camera_id && truthy camera_rtsp_url = false ->
       is_raise (run_result
         (RtspBackendClient.get_camera self camera_id camera_rtsp_url) s)
       = false).
Proof.
  unfold RtspBackendClient.get_camera. split; intros ->.
  - reflexivity.
  - apply total_try. intros e. apply total_handler.
Qed.

Section GetCameraRuns.
Import Scripted.

Lemma get_camera_raises_iff_both_truthy_witness :
  RtspBackendClient.get_camera (client (opts (JNum 50)))
      (JNum 7) (JStr "rtsp://a") (start silent)
    = (Raise (Exception "Stop doing that."), start silent, [])
  /\ is_raise (run_result
        (RtspBackendClient.get_camera (client (opts (JNum 50)))
           (JNum 7) None_) (start silent)) = false.
Proof.
  split.
  - apply (get_camera_raises_iff_both_truthy
             (client (opts (JNum 50))) (JNum 7) (JStr "rtsp://a") (start silent)).
    reflexivity.
  - apply (get_camera_raises_iff_both_truthy
             (client (opts (JNum 50))) (JNum 7) None_ (start silent)).
    reflexivity.
Defined.

(** C9 as stated fails: a call that passes both the id [0] and a URL does
    not raise; it goes on to send [GET /cameras?rtspUrl=...]. *)
Lemma get_camera_falsy_id_does_not_raise :
  JNum 0 <> None_ /\ JStr "rtsp://a" <> None_
  /\ ~ is_raise (run_result
         (RtspBackendClient.get_camera (client (opts (JNum 50)))
            (JNum 0) (JStr "rtsp://a")) (start silent)) = true
  /\ run_trace
       (RtspBackendClient.get_camera (client (opts (JNum 50)))
          (JNum 0) (JStr "rtsp://a")) (start silent)
     = [EvGet "http://10.8.0.1:8080/cameras?rtspUrl=rtsp://a";
        EvPrint (MsgExn unreachable)].
Proof. repeat split; try discriminate. Qed.

End GetCameraRuns.

(** * The probe *)

(** C3, as the code has it.  When the connection/read step raises, the
    exception is caught and printed and the method returns [None]: no
    status is produced, no file is touched and no report is sent.  Nothing
    propagates to the caller. *)
Theorem probe_exception_is_caught_and_logged `{RT : Runtime}
    (options : Options) (self : backend_client) (camera url : json)
    (e : exn) (s : state) :
  subscript camera "rtspUrl" = Ok url ->
  fst (capture_read url (world s)) = Raise e ->
  RtspBackendClient.health_check options self camera s =
    (Ok None_,
     State (snd (capture_read url (world s))) (files s),
     [EvCapture url; EvPrint (MsgExn e)]).
Proof.
  intros Hurl Hread. unfold RtspBackendClient.health_check.
  rewrite Hurl. run_step.
  destruct (capture_read url (world s)) as [r w']. simpl in *. subst r.
  reflexivity.
Qed.

Section ProbeRuns.
Import Scripted.

Lemma probe_exception_is_caught_and_logged_witness :
  RtspBackendClient.health_check (opts (JNum 50)) (client (opts (JNum 50)))
      (camera 1 "rtsp://a") (start broken_probe)
    = (Ok None_, start silent,
       [EvCapture (JStr "rtsp://a");
        EvPrint (MsgExn (LibraryError "cv2.error"))]).
Proof.
  apply (probe_exception_is_caught_and_logged
           (opts (JNum 50)) (client (opts (JNum 50))) (camera 1 "rtsp://a")
           (JStr "rtsp://a") (LibraryError "cv2.error") (start broken_probe));
    reflexivity.
Defined.

(** C3 as stated fails: the probe of camera 1 raises, and afterwards there
    is no metadata file for it and no report carrying [UNCONNECTED]. *)
Lemma probe_exception_yields_no_status :
  fst (capture_read (JStr "rtsp://a") (world (start broken_probe)))
    = Raise (LibraryError "cv2.error")
  /\ ~ is_Some (files (run_state
          (RtspBackendClient.health_check (opts (JNum 50))
             (client (opts (JNum 50))) (camera 1 "rtsp://a"))
          (start broken_probe)) !! "health-check/1.json")
  /\ ~ (exists url body,
          In (EvPut url body)
             (run_trace
                (RtspBackendClient.health_check (opts (JNum 50))
                   (client (opts (JNum 50))) (camera 1 "rtsp://a"))
                (start broken_probe))
          /\ subscript body "status" = Ok (JStr "UNCONNECTED")).
Proof.
  split; [reflexivity|]. split.
  - intros [x Hx]. vm_compute in Hx. discriminate.
  - intros (url & body & Hin & _). vm_compute in Hin.
    destruct Hin as [H|[H|[]]]; discriminate.
Qed.

End ProbeRuns.

(** * The cycle *)

Section ListingFacts.
Context `{RT : Runtime}.

(** A listing that gets no usable answer yields [None], never an exception. *)
Lemma get_all_camera_ids_absent (c : backend_client) (s : state) :
  absent_answer
    (fst (session_get (self_rtsp_backend_url c ++ "/cameras/ids") (world s)))
    = true ->
  exists w' msgs,
    RtspBackendClient.get_all_camera_ids c s =
      (Ok None_, State w' (files s),
       EvGet (self_rtsp_backend_url c ++ "/cameras/ids") :: map EvPrint msgs).
Proof.
  intros H. unfold RtspBackendClient.get_all_camera_ids. run_step.
  destruct (session_get _ (world s)) as [[resp|e] w']; simpl in *.
  - destruct (resp_ok resp); simpl in *.
    + destruct (resp_json resp) as [v|e]; [discriminate|]. simpl.
      by exists w', [MsgExn e].
    + by exists w',
        [MsgStatusCode (resp_status_code resp); MsgText (resp_text resp)].
  - by exists w', [MsgExn e].
Qed.

End ListingFacts.

(** C2, where the code departs from it.  When listing fails (transport
    error, non-success status or undecodable body) [get_all_camera_ids]
    does not raise, but what it returns is [None], not an empty sequence;
    the cycle prints its no-cameras line and then ends with the [TypeError]
    of iterating over [None]. *)
Theorem failed_listing_aborts_cycle `{RT : Runtime}
    (options : Options) (c : backend_client) (threads : json) (s : state) :
  absent_answer
    (fst (session_get (self_rtsp_backend_url c ++ "/cameras/ids") (world s)))
    = true ->
  run_result (RtspBackendClient.get_all_camera_ids c) s = Ok None_
  /\ run_result (download_cameras_and_do_health_check options c threads) s
     = Raise (TypeError "object is not iterable").
Proof.
  intros H.
  destruct (get_all_camera_ids_absent c s H) as (w' & msgs & E).
  split.
  - unfold run_result. by rewrite E.
  - unfold download_cameras_and_do_health_check. run_step.
    rewrite E. reflexivity.
Qed.

Section ListingRuns.
Import Scripted.

Lemma failed_listing_aborts_cycle_witness :
  run_result (RtspBackendClient.get_all_camera_ids (client (opts (JNum 50))))
    (start silent) = Ok None_
  /\ run_result
       (download_cameras_and_do_health_check (opts (JNum 50))
          (client (opts (JNum 50))) (JNum 50)) (start silent)
     = Raise (TypeError "object is not iterable").
Proof.
  apply (failed_listing_aborts_cycle (opts (JNum 50))
           (client (opts (JNum 50))) (JNum 50) (start silent)).
  reflexivity.
Defined.

End ListingRuns.

Section Sequencing.
Context `{RT : Runtime}.
Local Open Scope py_scope.

Lemma bind_ext {A B} (m : M A) (k k' : A -> M B) s :
  (forall a s1, k a s1 = k' a s1) -> bind m k s = bind m k' s.
Proof.
  intros H. unfold bind. destruct (m s) as [[[a|e] s1] t1]; [|done].
  by rewrite H.
Qed.

Lemma bind_cong {A B} (m m' : M A) (k k' : A -> M B) s :
  (forall s0, m s0 = m' s0) -> (forall a s1, k a s1 = k' a s1) ->
  bind m k s = bind m' k' s.
Proof.
  intros Hm Hk. rewrite (bind_ext m k k' s Hk). unfold bind. by rewrite Hm.
Qed.

Lemma bind_assoc {A B C} (m : M A) (k : A -> M B) (h : B -> M C) s :
  bind (bind m k) h s = bind m (fun a => bind (k a) h) s.
Proof.
  unfold bind. destruct (m s) as [[[a|e] s1] t1]; [|done].
  destruct (k a s1) as [[[b|e] s2] t2]; [|done].
  destruct (h b s2) as [[r s3] t3]. by rewrite app_assoc.
Qed.

Lemma bind_ret_l {A B} (a : A) (k : A -> M B) s : bind (ret a) k s = k a s.
Proof. unfold bind, ret. by destruct (k a s) as [[r s2] t2]. Qed.

(** The per-camera loop reads [options] only through the two globals
    derived from it, and those do not look at [--threads]. *)
Lemma health_check_from_set_threads options t1 t2 n i cameras s :
  health_check_from (set_threads t1 options) n i cameras s =
  health_check_from (set_threads t2 options) n i cameras s.
Proof.
  revert i s. induction cameras as [|camera rest IH]; intros i s.
  - reflexivity.
  - simpl. apply bind_ext. intros is_updated s1.
    apply bind_ext. intros _ s2. apply IH.
Qed.

Lemma cycle_set_threads options t1 t2 c u1 u2 s :
  download_cameras_and_do_health_check (set_threads t1 options) c u1 s =
  download_cameras_and_do_health_check (set_threads t2 options) c u2 s.
Proof.
  unfold download_cameras_and_do_health_check.
  apply bind_ext. intros _ s1. apply bind_ext. intros camera_ids s2.
  apply bind_ext. intros _ s3. apply bind_ext. intros ids s4.
  apply bind_ext. intros cameras s5.
  destruct cameras as [|camera rest]; [reflexivity|].
  unfold health_check. apply bind_ext. intros _ s6.
  apply health_check_from_set_threads.
Qed.

Lemma daemon_set_threads options t1 t2 sleep_timer cycles s :
  daemon (set_threads t1 options) sleep_timer cycles s =
  daemon (set_threads t2 options) sleep_timer cycles s.
Proof.
  revert s. induction cycles as [|cycles IH]; intros s; [reflexivity|].
  simpl. apply bind_cong; [intros s0; apply cycle_set_threads|].
  intros _ s1. apply bind_ext. intros _ s2.
  apply bind_ext. intros _ s3. apply IH.
Qed.

(** Cameras are handled one after the other: the run over [l1 ++ l2] is the
    whole run over [l1] followed by the run over [l2]. *)
Lemma health_check_from_app options n i l1 l2 s :
  health_check_from options n i (l1 ++ l2)%list s =
  (health_check_from options n i l1 ;;
   health_check_from options n (i + length l1) l2) s.
Proof.
  revert i s. induction l1 as [|camera rest IH]; intros i s.
  - cbn [health_check_from app length].
    rewrite bind_ret_l, Nat.add_0_r. reflexivity.
  - cbn [health_check_from app length]. rewrite bind_assoc. apply bind_ext. intros is_updated s1.
    rewrite bind_assoc. apply bind_ext. intros _ s2.
    rewrite IH. by rewrite Nat.add_succ_r.
Qed.

End Sequencing.

(** C8. The [--threads] value changes nothing: with the same world, one
    cycle (and a whole run of [main]) under two thread counts gives the same
    result, the same final state and the same events in the same order.
    The cameras are handled strictly in sequence: everything done for the
    cameras of [l1] precedes everything done for those of [l2]. *)
Theorem threads_option_has_no_effect `{RT : Runtime}
    (options : Options) (c : backend_client) (t1 t2 : json)
    (cycles n i : nat) (l1 l2 : list json) (s : state) :
  download_cameras_and_do_health_check options c t1 s =
    download_cameras_and_do_health_check options c t2 s
  /\ main cycles (set_threads t1 options) s =
     main cycles (set_threads t2 options) s
  /\ health_check_from options n i (l1 ++ l2)%list s =
     bind (health_check_from options n i l1)
          (fun _ => health_check_from options n (i + length l1) l2) s.
Proof.
  split; [reflexivity|]. split.
  - unfold main. simpl.
    destruct (opt_health_check options); [|reflexivity].
    destruct (opt_daemon options).
    + apply bind_ext. intros _ s1. apply daemon_set_threads.
    + apply cycle_set_threads.
  - apply health_check_from_app.
Qed.

(** * Which events a run can contain *)

Section EventFacts.
Context `{RT : Runtime}.
Local Open Scope py_scope.

Lemma emits_print P msg : P (EvPrint msg) -> emits P (print msg).
Proof. apply emits_emit. Qed.

Lemma emits_http_get P url : P (EvGet url) -> emits P (http_get url).
Proof.
  intros H. apply emits_bind; [by apply emits_emit | intros; apply emits_ask].
Qed.

Lemma emits_http_put P url body :
  P (EvPut url body) -> emits P (http_put url body).
Proof.
  intros H. apply emits_bind; [by apply emits_emit | intros; apply emits_ask].
Qed.

Lemma emits_video_capture_read P url :
  P (EvCapture url) -> emits P (video_capture_read url).
Proof.
  intros H. apply emits_bind; [by apply emits_emit | intros; apply emits_ask].
Qed.

Lemma emits_imwrite P path fr :
  P (EvImwrite path fr) -> emits P (imwrite path fr).
Proof.
  intros H. apply emits_bind; [by apply emits_emit | intros _].
  apply emits_bind; [apply emits_ask | intros written].
  apply emits_bind; [|intros; apply emits_ret].
  destruct written; [apply emits_store | apply emits_ret].
Qed.

Lemma emits_read_file P path : P (EvOpenRead path) -> emits P (read_file path).
Proof.
  intros H. apply emits_bind; [by apply emits_emit | intros _].
  intros s. unfold run_trace. destruct (files s !! path) as [contents|].
  - apply (emits_bind P (check (open_rb_fault path)) (fun _ => ret contents));
      [apply emits_check | intros; apply emits_ret].
  - constructor.
Qed.

Lemma emits_open_w P path : P (EvOpenWrite path) -> emits P (open_w path).
Proof.
  intros H. apply emits_bind; [by apply emits_emit | intros _].
  apply emits_bind; [apply emits_check | intros; apply emits_store].
Qed.

Lemma emits_json_dump P path v : P (EvDump path v) -> emits P (json_dump path v).
Proof.
  intros H. apply emits_bind; [by apply emits_emit | intros _].
  apply emits_bind; [apply emits_check | intros; apply emits_store].
Qed.

End EventFacts.

(** Walks a computation built from the calls above; the side conditions
    left over are the events whose content matters to the predicate. *)
Ltac emits_walk :=
  repeat first
    [ apply emits_ret | apply emits_raise | apply emits_lift
    | apply emits_ask | apply emits_check | apply emits_store
    | apply emits_print; try exact I
    | apply emits_http_get; try exact I
    | apply emits_http_put; try exact I
    | apply emits_video_capture_read; try exact I
    | apply emits_imwrite; try exact I
    | apply emits_read_file; try exact I
    | apply emits_open_w; try exact I
    | apply emits_json_dump; try exact I
    | apply emits_try; [|intros ?]
    | apply emits_bind; [|intros ?]
    | match goal with
      | |- emits _ (if ?b then _ else _) => destruct b
      | |- emits _ (match ?x with _ => _ end) => destruct x
      end ].

Section StatusFacts.
Context `{RT : Runtime}.
Local Open Scope py_scope.

Lemma dict_get_set_other k k' v d :
  k <> k' -> dict_get k (dict_set k' v d) = dict_get k d.
Proof.
  intros Hne. induction d as [|[k0 v0] d IH]; simpl.
  - destruct (String.eqb_spec k k'); [done|reflexivity].
  - destruct (String.eqb_spec k' k0) as [->|Hk0]; simpl.
    + destruct (String.eqb_spec k k0); [done|reflexivity].
    + destruct (String.eqb_spec k k0); [reflexivity|apply IH].
Qed.

Lemma alias_url_status camera :
  subscript (JObj (RtspBackendClient.alias_url camera)) "status"
  = subscript (JObj camera) "status".
Proof.
  unfold RtspBackendClient.alias_url.
  destruct (dict_has "rtspUrl" camera && negb (dict_has "url" camera));
    [|reflexivity].
  destruct (dict_get "rtspUrl" camera) as [u|]; [|reflexivity].
  simpl. by rewrite dict_get_set_other.
Qed.

Lemma emits_update_camera P options self camera :
  (forall msg, P (EvPrint msg)) ->
  P (EvPut (rtsp_backend_url options ++ "/cameras/import")
           (JObj (RtspBackendClient.alias_url camera))) ->
  emits P (RtspBackendClient.update_camera options self camera).
Proof.
  intros Hprint Hput s.
  destruct (update_camera_run options self camera s) as (r & w' & msgs & E).
  unfold run_trace. rewrite E. simpl. constructor; [done|].
  clear E. induction msgs as [|msg msgs IH]; simpl; constructor; auto.
Qed.

Lemma camera_to_save_status camera status :
  returns (fun v => subscript v "status" = status)
          (RtspBackendClient.camera_to_save camera status).
Proof.
  intros s v. unfold RtspBackendClient.camera_to_save. run_step.
  repeat match goal with
  | |- context [subscript camera ?k] => destruct (subscript camera k); simpl
  end; try discriminate.
  destruct status; simpl; [|discriminate].
  intros [= <-]. reflexivity.
Qed.

Lemma health_check_carries_probe_status options self camera :
  emits carries_probe_status
        (RtspBackendClient.health_check options self camera).
Proof.
  unfold RtspBackendClient.health_check, RtspBackendClient.artifact_path.
  apply emits_bind; [apply emits_lift | intros camera_url].
  apply emits_try; [|intros e; emits_walk].
  apply emits_bind; [emits_walk | intros [is_connected fr]].
  destruct is_connected.
  - do 6 (apply emits_bind; [emits_walk | intros ?]).
    eapply emits_bind_post;
      [emits_walk | apply camera_to_save_status | intros to_save Hst].
    apply emits_bind; [apply emits_json_dump; by left | intros _].
    apply emits_update_camera; [done|].
    left. by rewrite alias_url_status.
  - do 4 (apply emits_bind; [emits_walk | intros ?]).
    eapply emits_bind_post;
      [emits_walk | apply camera_to_save_status | intros to_save Hst].
    apply emits_bind; [apply emits_json_dump; by right | intros _].
    apply emits_update_camera; [done|].
    right. by rewrite alias_url_status.
Qed.

End StatusFacts.

Section StatusOfCycle.
Context `{RT : Runtime}.
Local Open Scope py_scope.

Lemma get_camera_carries_probe_status self camera_id camera_rtsp_url :
  emits carries_probe_status
        (RtspBackendClient.get_camera self camera_id camera_rtsp_url).
Proof. unfold RtspBackendClient.get_camera. emits_walk. Qed.

Lemma get_all_camera_ids_carries_probe_status self :
  emits carries_probe_status (RtspBackendClient.get_all_camera_ids self).
Proof. unfold RtspBackendClient.get_all_camera_ids. emits_walk. Qed.

Lemma health_check_from_carries_probe_status options n i cameras :
  emits carries_probe_status (health_check_from options n i cameras).
Proof.
  revert i. induction cameras as [|camera rest IH]; intros i; simpl.
  - apply emits_ret.
  - apply emits_bind; [apply health_check_carries_probe_status | intros u].
    apply emits_bind; [unfold report_line; emits_walk | intros _]. apply IH.
Qed.

Lemma fetch_from_carries_probe_status self n i camera_ids cameras :
  emits carries_probe_status (fetch_from self n i camera_ids cameras).
Proof.
  revert i cameras.
  induction camera_ids as [|camera_id rest IH]; intros i cameras; simpl.
  - apply emits_ret.
  - apply emits_bind; [emits_walk | intros _].
    apply emits_bind; [apply get_camera_carries_probe_status | intros camera].
    apply IH.
Qed.

Lemma cycle_carries_probe_status options c threads :
  emits carries_probe_status
        (download_cameras_and_do_health_check options c threads).
Proof.
  unfold download_cameras_and_do_health_check.
  apply emits_bind; [emits_walk | intros _].
  apply emits_bind;
    [apply get_all_camera_ids_carries_probe_status | intros camera_ids].
  apply emits_bind; [emits_walk | intros _].
  apply emits_bind; [emits_walk | intros ids].
  apply emits_bind; [apply fetch_from_carries_probe_status | intros cameras].
  destruct cameras; [emits_walk|].
  unfold health_check. apply emits_bind; [emits_walk | intros _].
  apply health_check_from_carries_probe_status.
Qed.

Lemma daemon_carries_probe_status options sleep_timer cycles :
  emits carries_probe_status (daemon options sleep_timer cycles).
Proof.
  induction cycles as [|cycles IH]; simpl.
  - apply emits_ret.
  - apply emits_bind; [apply cycle_carries_probe_status | intros _].
    apply emits_bind; [emits_walk | intros _].
    apply emits_bind; [by apply emits_emit | intros _]. apply IH.
Qed.

Lemma probe_status_in_vocabulary v :
  probe_status v ->
  exists st, subscript v "status" = Ok (JStr st) /\ In st camera_statuses.
Proof.
  intros [H|H]; [exists "OPEN" | exists "UNCONNECTED"];
    (split; [exact H | simpl; tauto]).
Qed.

End StatusOfCycle.

(** C6. Whatever the world answers and however long the program runs,
    every metadata write and every report it issues carries a status that
    is ['OPEN'] or ['UNCONNECTED'], hence one of the four values of
    [camera_statuses]; ['UNAUTHORIZED'] and ['NOT_FOUND'] are never
    produced, neither by [main] nor by a single probe. *)
Theorem written_status_is_open_or_unconnected `{RT : Runtime}
    (cycles : nat) (options : Options) (self : backend_client)
    (camera : json) (s : state) :
  Forall carries_listed_status (run_trace (main cycles options) s)
  /\ Forall carries_listed_status
       (run_trace (RtspBackendClient.health_check options self camera) s).
Proof.
  assert (Hlisted : forall ev,
             carries_probe_status ev -> carries_listed_status ev).
  { intros [] H; simpl in *; auto using probe_status_in_vocabulary. }
  split; (eapply Forall_impl; [|exact Hlisted]).
  - unfold main.
    destruct (opt_health_check options); [|constructor].
    destruct (opt_daemon options).
    + apply (emits_bind carries_probe_status); [emits_walk | intros _].
      apply daemon_carries_probe_status.
    + apply cycle_carries_probe_status.
  - apply health_check_carries_probe_status.
Qed.

(** * One camera after the other *)

Section LoopFacts.
Context `{RT : Runtime}.
Local Open Scope py_scope.

Lemma quiet_omap (t : list event) :
  Forall quiet t -> omap capture_of t = [] /\ omap verdict_of t = [].
Proof.
  induction 1 as [|ev t Hev _ [IH1 IH2]]; [done|].
  destruct ev as [[]| | | | | | | |]; simpl in *; done.
Qed.

Lemma has_field_subscript camera k :
  has_field camera k = true -> subscript camera k = Ok (field camera k).
Proof.
  unfold has_field, field. by destruct (subscript camera k).
Qed.

(** A [try] whose body starts by announcing an event announces it first. *)
Lemma try_bind_emit {A B} ev (g : unit -> M A) (k : A -> M B) h s :
  try_except (bind (bind (emit ev) g) k) h s =
  bind (emit ev) (fun u => try_except (bind (g u) k) h) s.
Proof.
  unfold try_except, bind, emit.
  destruct (g () s) as [[[a|e] s1] t1]; simpl.
  - destruct (k a s1) as [[[b|e] s2] t2]; simpl; [reflexivity|].
    by destruct (h e s2) as [[r s3] t3].
  - by destruct (h e s1) as [[r s2] t2].
Qed.

(** One camera: the probe is attempted exactly once, the method returns
    normally whatever happens afterwards. *)
Lemma health_check_one_probe options self camera s :
  has_field camera "rtspUrl" = true ->
  exists r s1 t,
    RtspBackendClient.health_check options self camera s
      = (Ok r, s1, EvCapture (field camera "rtspUrl") :: t)
    /\ Forall quiet t.
Proof.
  intros Hurl. apply has_field_subscript in Hurl.
  unfold RtspBackendClient.health_check. rewrite Hurl.
  cbn [lift]. rewrite bind_ret_l.
  unfold video_capture_read at 1. rewrite try_bind_emit.
  match goal with
  | |- context [bind (emit _) ?k s] => set (rest := k tt)
  end.
  assert (Hq : emits quiet rest).
  { subst rest. unfold RtspBackendClient.artifact_path,
      RtspBackendClient.camera_to_save. emits_walk;
      apply emits_update_camera; done. }
  assert (Ht : total rest).
  { subst rest. apply total_try. intros e. apply total_handler. }
  specialize (Hq s). specialize (Ht s).
  unfold run_trace in Hq. unfold run_result in Ht.
  unfold bind, emit. fold rest.
  destruct (rest s) as [[[r|e] s1] t]; simpl in *; [|discriminate].
  by exists r, s1, t.
Qed.

Lemma report_line_run is_updated camera i n s :
  has_fields ["cameraId"; "rtspUrl"; "status"] camera = true ->
  exists msg,
    report_line is_updated camera i n s = (Ok tt, s, [EvPrint msg])
    /\ verdict_of (EvPrint msg) = Some (i + 1).
Proof.
  unfold has_fields. simpl. rewrite !andb_true_iff.
  intros (H1 & H2 & H3 & _).
  apply has_field_subscript in H1, H2, H3.
  unfold report_line. rewrite H1, H2, H3. run_step.
  destruct (truthy is_updated); eexists; split; reflexivity.
Qed.

Lemma health_check_from_runs_all options n i cameras s :
  Forall (fun camera =>
            has_fields ["cameraId"; "rtspUrl"; "status"] camera = true)
         cameras ->
  run_result (health_check_from options n i cameras) s = Ok tt
  /\ omap capture_of (run_trace (health_check_from options n i cameras) s)
     = map (fun camera => field camera "rtspUrl") cameras
  /\ omap verdict_of (run_trace (health_check_from options n i cameras) s)
     = seq (i + 1) (length cameras).
Proof.
  intros Hall. revert i s.
  induction Hall as [|camera rest Hcam _ IH]; intros i s; [done|].
  assert (Hurl : has_field camera "rtspUrl" = true).
  { unfold has_fields in Hcam. simpl in Hcam.
    rewrite !andb_true_iff in Hcam. tauto. }
  destruct (health_check_one_probe options (client options) camera s Hurl)
    as (r & s1 & t & E & Hq).
  destruct (report_line_run r camera i n s1 Hcam) as (msg & Eline & Hv).
  destruct (quiet_omap t Hq) as [Hc0 Hv0].
  specialize (IH (S i) s1). destruct IH as (IHr & IHc & IHv).
  cbn [health_check_from].
  unfold run_result, run_trace in *.
  rewrite (bind_ok _ _ s r s1 _ E).
  unfold run_result, run_state, run_trace.
  rewrite (bind_ok _ _ s1 tt s1 _ Eline).
  unfold run_result, run_state, run_trace. cbn [fst snd].
  split; [exact IHr|].
  rewrite !omap_app, IHc, IHv. cbn [omap list_omap capture_of verdict_of].
  simpl in Hv. rewrite Hc0, Hv0, Hv.
  replace (S i + 1) with (S (i + 1)) by lia. done.
Qed.

End LoopFacts.

(** C5. For camera records that carry the three fields read outside the
    [try] blocks ([cameraId], [rtspUrl], [status]), no answer of the world
    (a probe that raises, a disk that fails, a report that is refused)
    stops the loop: it ends normally, it has attempted the probe of every
    camera, in order, and has printed a verdict line for each. *)
Theorem one_camera_failure_never_stops_the_loop `{RT : Runtime}
    (options : Options) (cameras : list json) (s : state) :
  Forall (fun camera =>
            has_fields ["cameraId"; "rtspUrl"; "status"] camera = true)
         cameras ->
  run_result (health_check options cameras) s = Ok tt
  /\ omap capture_of (run_trace (health_check options cameras) s)
     = map (fun camera => field camera "rtspUrl") cameras
  /\ omap verdict_of (run_trace (health_check options cameras) s)
     = seq 1 (length cameras).
Proof.
  intros Hall.
  destruct (health_check_from_runs_all options (length cameras) 0 cameras s Hall)
    as (Hr & Hc & Hv).
  unfold health_check, run_result, run_trace in *. unfold bind, print, emit.
  destruct (health_check_from options (length cameras) 0 cameras s)
    as [[r' s'] t'].
  simpl in *. auto.
Qed.

(** * Fetching the records *)

Section FetchFacts.
Context `{RT : Runtime}.
Local Open Scope py_scope.

(** A fetch that gets no usable answer yields [None]: one GET, some
    printing, the disk untouched. *)
Lemma get_camera_absent self camera_id s :
  absent_answer (fst (session_get (fetch_url self camera_id) (world s)))
    = true ->
  exists w' msgs,
    RtspBackendClient.get_camera self camera_id None_ s =
      (Ok None_, State w' (files s),
       EvGet (fetch_url self camera_id) :: map EvPrint msgs).
Proof.
  intros H. unfold RtspBackendClient.get_camera, fetch_url in *.
  cbn [truthy None_]. rewrite andb_false_r.
  destruct (truthy camera_id); run_step;
    (destruct (session_get _ (world s)) as [[resp|e] w']; simpl in *;
     [ destruct (resp_ok resp); simpl in *;
       [ destruct (resp_json resp) as [v|e]; [discriminate|]; simpl;
         by exists w', [MsgExn e]
       | by exists w',
           [MsgStatusCode (resp_status_code resp); MsgText (resp_text resp)] ]
     | by exists w', [MsgExn e] ]).
Qed.

End FetchFacts.

(** C4. When the fetch of an id gets no record (transport error,
    non-success status or undecodable body), [get_camera] returns [None]
    and the loop moves on to the remaining ids with the list of cameras
    unchanged.  All that happened for this id is the progress line, one GET
    and some printing: no probe, no file write, no report, and the disk is as
    it was.  Only the collected cameras are handed to the health check. *)
Theorem absent_fetch_is_skipped `{RT : Runtime}
    (self : backend_client) (n i : nat) (camera_id : json)
    (rest cameras : list json) (s : state) :
  absent_answer (fst (session_get (fetch_url self camera_id) (world s)))
    = true ->
  exists w' msgs,
    run_result (RtspBackendClient.get_camera self camera_id None_) s
      = Ok None_
    /\ fetch_from self n i (camera_id :: rest) cameras s =
       (run_result (fetch_from self n (S i) rest cameras)
                   (State w' (files s)),
        run_state (fetch_from self n (S i) rest cameras)
                  (State w' (files s)),
        EvPrint (MsgAsking (i + 1) n)
          :: EvGet (fetch_url self camera_id)
          :: (map EvPrint msgs
              ++ run_trace (fetch_from self n (S i) rest cameras)
                           (State w' (files s)))%list).
Proof.
  intros H. destruct (get_camera_absent self camera_id s H) as (w' & msgs & E).
  exists w', msgs. split.
  - unfold run_result. by rewrite E.
  - cbn [fetch_from]. unfold bind at 1, print, emit.
    rewrite (bind_ok _ _ s None_ _ _ E). reflexivity.
Qed.

(** * Persisting the result *)

Ltac reduce := cbn beta iota zeta delta [world files app fst snd].

(** Uses a clause [H] of [disk_healthy] on the next call of its kind. *)
Ltac healthy H :=
  match goal with
  | |- context [let (_, _) := ?call in _] =>
      let E := fresh "E" in
      let a := fresh "a" in
      let w := fresh "w" in
      destruct call as [a w] eqn:E;
      apply (f_equal fst) in E; rewrite H in E; simpl in E; subst a; reduce
  end.

Section PersistFacts.
Context `{RT : Runtime}.
Local Open Scope py_scope.

Lemma has_fields_cons k ks camera :
  has_fields (k :: ks) camera = true ->
  subscript camera k = Ok (field camera k) /\ has_fields ks camera = true.
Proof.
  unfold has_fields. simpl. rewrite andb_true_iff. intros [H1 H2].
  split; [by apply has_field_subscript | done].
Qed.

(** A frame was read and the disk is healthy: image, metadata and report
    all say [OPEN]. *)
Lemma health_check_frame options self camera fr s :
  disk_healthy ->
  has_fields saved_fields camera = true ->
  fst (capture_read (field camera "rtspUrl") (world s)) = Ok (true, fr) ->
  exists r w' msgs,
    RtspBackendClient.health_check options self camera s =
      (Ok r,
       State w' (<[metadata_path self camera :=
                     json_dumps (metadata camera "OPEN")]>
                 (<[image_path self camera := imencode fr]> (files s))),
       ([EvCapture (field camera "rtspUrl");
         EvImwrite (image_path self camera) fr;
         EvOpenRead (image_path self camera);
         EvOpenWrite (metadata_path self camera);
         EvDump (metadata_path self camera) (metadata camera "OPEN");
         EvPut (rtsp_backend_url options ++ "/cameras/import")
               (open_report camera fr)]
        ++ map EvPrint msgs)%list).
Proof.
  intros (Himw & Hrb & Hw & Hwr) Hf Hread.
  apply has_fields_cons in Hf as [Hurl Hf].
  apply has_fields_cons in Hf as [Hid Hf].
  apply has_fields_cons in Hf as [Hcc Hf].
  apply has_fields_cons in Hf as [Hcn Hf].
  apply has_fields_cons in Hf as [Hcity _].
  unfold RtspBackendClient.health_check, RtspBackendClient.artifact_path,
    RtspBackendClient.camera_to_save.
  rewrite Hurl, Hid, Hcc, Hcn, Hcity. run_step.
  destruct (capture_read _ (world s)) as [r1 w1]. simpl in Hread. subst r1.
  reduce. healthy Himw. rewrite lookup_insert_eq.
  healthy Hrb. healthy Hw.
  simpl (subscript (JObj _) _). reduce. healthy Hwr.
  rewrite insert_insert_eq.
  match goal with
  | |- context [RtspBackendClient.update_camera options self ?d ?s1] =>
      destruct (update_camera_run options self d s1) as (r & w' & msgs & E);
      rewrite E
  end.
  exists r, w', msgs. reflexivity.
Qed.

(** No frame was read and the disk is healthy: no image is written,
    metadata and report say [UNCONNECTED]. *)
Lemma health_check_no_frame options self camera fr s :
  disk_healthy ->
  has_fields record_fields camera = true ->
  fst (capture_read (field camera "rtspUrl") (world s)) = Ok (false, fr) ->
  exists r w' msgs,
    RtspBackendClient.health_check options self camera s =
      (Ok r,
       State w' (<[metadata_path self camera :=
                     json_dumps (metadata camera "UNCONNECTED")]> (files s)),
       ([EvCapture (field camera "rtspUrl");
         EvOpenWrite (metadata_path self camera);
         EvDump (metadata_path self camera) (metadata camera "UNCONNECTED");
         EvPut (rtsp_backend_url options ++ "/cameras/import")
               (unconnected_report camera)]
        ++ map EvPrint msgs)%list).
Proof.
  intros (Himw & Hrb & Hw & Hwr) Hf Hread.
  apply has_fields_cons in Hf as [Hurl Hf].
  apply has_fields_cons in Hf as [Hid Hf].
  apply has_fields_cons in Hf as [Hcc Hf].
  apply has_fields_cons in Hf as [Hcn Hf].
  apply has_fields_cons in Hf as [Hcity Hf].
  apply has_fields_cons in Hf as [Hlabels _].
  unfold RtspBackendClient.health_check, RtspBackendClient.artifact_path,
    RtspBackendClient.camera_to_save.
  rewrite Hurl, Hid, Hcc, Hcn, Hcity, Hlabels. run_step.
  destruct (capture_read _ (world s)) as [r1 w1]. simpl in Hread. subst r1.
  reduce. healthy Hw. healthy Hwr. rewrite insert_insert_eq.
  match goal with
  | |- context [RtspBackendClient.update_camera options self ?d ?s1] =>
      destruct (update_camera_run options self d s1) as (r & w' & msgs & E);
      rewrite E
  end.
  exists r, w', msgs. reflexivity.
Qed.

Lemma append_inj_r (a x y : string) : a ++ x = a ++ y -> x = y.
Proof. induction a as [|c a IH]; simpl; [done|]. intros [= H]. auto. Qed.

Lemma image_path_ne_metadata_path self camera :
  metadata_path self camera <> image_path self camera.
Proof.
  unfold metadata_path, image_path. intros H.
  do 3 apply append_inj_r in H. discriminate.
Qed.

(** One persist, whatever the probe read: the effect on the disk. *)
Lemma health_check_files options self camera is_connected fr s :
  disk_healthy ->
  has_fields record_fields camera = true ->
  fst (capture_read (field camera "rtspUrl") (world s))
    = Ok (is_connected, fr) ->
  files (run_state (RtspBackendClient.health_check options self camera) s) =
    <[metadata_path self camera :=
        json_dumps (metadata camera
                      (if is_connected then "OPEN" else "UNCONNECTED"))]>
      (if is_connected
       then <[image_path self camera := imencode fr]> (files s)
       else files s).
Proof.
  intros Hd Hf Hread. destruct is_connected.
  - assert (Hf' : has_fields saved_fields camera = true).
    { unfold has_fields in *. simpl in *. rewrite !andb_true_iff in *. tauto. }
    destruct (health_check_frame options self camera fr s Hd Hf' Hread)
      as (r & w' & msgs & E).
    unfold run_state. by rewrite E.
  - destruct (health_check_no_frame options self camera fr s Hd Hf Hread)
      as (r & w' & msgs & E).
    unfold run_state. by rewrite E.
Qed.

End PersistFacts.

(** C1. With a healthy disk and a record that carries the fields the method
    reads: if the probe reads a frame, the image file holds that frame, the
    metadata file and the report sent to the inventory both say ['OPEN'];
    if it reads none, no image is written (the image path is as before),
    and the metadata file and the report both say ['UNCONNECTED']. *)
Theorem probe_outcome_decides_status `{RT : Runtime}
    (options : Options) (self : backend_client) (camera : json)
    (is_connected : bool) (fr : frame) (s : state) :
  disk_healthy ->
  has_fields record_fields camera = true ->
  fst (capture_read (field camera "rtspUrl") (world s))
    = Ok (is_connected, fr) ->
  (exists msgs,
     run_trace (RtspBackendClient.health_check options self camera) s =
       ((if is_connected then
           [EvCapture (field camera "rtspUrl");
            EvImwrite (image_path self camera) fr;
            EvOpenRead (image_path self camera);
            EvOpenWrite (metadata_path self camera);
            EvDump (metadata_path self camera) (metadata camera "OPEN");
            EvPut (rtsp_backend_url options ++ "/cameras/import")
                  (open_report camera fr)]
         else
           [EvCapture (field camera "rtspUrl");
            EvOpenWrite (metadata_path self camera);
            EvDump (metadata_path self camera)
                   (metadata camera "UNCONNECTED");
            EvPut (rtsp_backend_url options ++ "/cameras/import")
                  (unconnected_report camera)])
        ++ map EvPrint msgs)%list)
  /\ files (run_state (RtspBackendClient.health_check options self camera) s)
       !! metadata_path self camera
     = Some (json_dumps (metadata camera
                           (if is_connected then "OPEN" else "UNCONNECTED")))
  /\ files (run_state (RtspBackendClient.health_check options self camera) s)
       !! image_path self camera
     = (if is_connected then Some (imencode fr)
        else files s !! image_path self camera)
  /\ subscript (open_report camera fr) "status" = Ok (JStr "OPEN")
  /\ subscript (unconnected_report camera) "status" = Ok (JStr "UNCONNECTED").
Proof.
  intros Hd Hf Hread. split; [|split; [|split; [|done]]].
  - destruct is_connected.
    + assert (Hf' : has_fields saved_fields camera = true).
      { unfold has_fields in *. simpl in *. rewrite !andb_true_iff in *. tauto. }
      destruct (health_check_frame options self camera fr s Hd Hf' Hread)
        as (r & w' & msgs & E).
      exists msgs. unfold run_trace. by rewrite E.
    + destruct (health_check_no_frame options self camera fr s Hd Hf Hread)
        as (r & w' & msgs & E).
      exists msgs. unfold run_trace. by rewrite E.
  - rewrite (health_check_files options self camera is_connected fr s Hd Hf Hread).
    apply lookup_insert_eq.
  - rewrite (health_check_files options self camera is_connected fr s Hd Hf Hread).
    rewrite lookup_insert_ne by apply image_path_ne_metadata_path.
    destruct is_connected; [apply lookup_insert_eq | reflexivity].
Qed.

(** C7, as the code has it.  Two persists for the same [cameraId] write to
    the same two paths and to nothing else.  The metadata file holds the
    latest result only.  The image file holds the latest frame when the
    latest probe read one; otherwise it is left as the earlier persist left
    it: the earlier frame if there was one, else whatever was (or was not)
    there before. *)
Theorem persist_twice_last_write_wins `{RT : Runtime}
    (options : Options) (self : backend_client) (camera1 camera2 : json)
    (c1 c2 : bool) (f1 f2 : frame) (s : state) :
  disk_healthy ->
  has_fields record_fields camera1 = true ->
  has_fields record_fields camera2 = true ->
  field camera1 "cameraId" = field camera2 "cameraId" ->
  fst (capture_read (field camera1 "rtspUrl") (world s)) = Ok (c1, f1) ->
  fst (capture_read (field camera2 "rtspUrl")
         (world (run_state
                   (RtspBackendClient.health_check options self camera1) s)))
    = Ok (c2, f2) ->
  files (run_state (RtspBackendClient.health_check options self camera2)
           (run_state (RtspBackendClient.health_check options self camera1) s))
    !! metadata_path self camera2
    = Some (json_dumps (metadata camera2
                          (if c2 then "OPEN" else "UNCONNECTED")))
  /\ files (run_state (RtspBackendClient.health_check options self camera2)
             (run_state (RtspBackendClient.health_check options self camera1) s))
       !! image_path self camera2
     = (if c2 then Some (imencode f2)
        else if c1 then Some (imencode f1)
        else files s !! image_path self camera2)
  /\ (forall path,
        path <> metadata_path self camera2 ->
        path <> image_path self camera2 ->
        files (run_state (RtspBackendClient.health_check options self camera2)
                 (run_state (RtspBackendClient.health_check options self camera1) s))
          !! path
        = files s !! path).
Proof.
  intros Hd Hf1 Hf2 Hid Hr1 Hr2.
  rewrite (health_check_files options self camera2 c2 f2 _ Hd Hf2 Hr2).
  rewrite (health_check_files options self camera1 c1 f1 s Hd Hf1 Hr1).
  assert (Hm : metadata_path self camera1 = metadata_path self camera2)
    by (unfold metadata_path; by rewrite Hid).
  assert (Hi : image_path self camera1 = image_path self camera2)
    by (unfold image_path; by rewrite Hid).
  rewrite Hm, Hi.
  pose proof (image_path_ne_metadata_path self camera2) as Hne.
  split; [apply lookup_insert_eq|]. split.
  - rewrite lookup_insert_ne by done.
    destruct c2; [apply lookup_insert_eq|].
    rewrite lookup_insert_ne by done.
    destruct c1; [apply lookup_insert_eq | reflexivity].
  - intros path Hpm Hpi.
    rewrite lookup_insert_ne by done.
    destruct c2; [rewrite lookup_insert_ne by done|];
      (rewrite lookup_insert_ne by done);
      (destruct c1; [by rewrite lookup_insert_ne|done]).
Qed.

(** * Concrete runs *)

Section Runs.
Import Scripted.

Lemma scripted_disk_healthy : disk_healthy.
Proof. repeat split. Qed.

Lemma absent_fetch_is_skipped_witness :
  absent_answer
    (fst (session_get (fetch_url (client (opts (JNum 50))) (JNum 2))
            (world (start refused_fetch)))) = true
  /\ run_result
       (RtspBackendClient.get_camera (client (opts (JNum 50))) (JNum 2) None_)
       (start refused_fetch) = Ok None_.
Proof.
  split; [reflexivity|].
  destruct (absent_fetch_is_skipped (client (opts (JNum 50))) 2 0 (JNum 2)
              [JNum 3] [] (start refused_fetch)) as (w' & msgs & H & _);
    [reflexivity | exact H].
Defined.

(** The probe of camera 1 raises; camera 3 is still probed and both get
    their verdict line. *)
Lemma one_camera_failure_never_stops_the_loop_witness :
  run_result
    (health_check (opts (JNum 50)) [camera 1 "rtsp://a"; camera 3 "rtsp://c"])
    (start broken_probe) = Ok tt
  /\ omap capture_of
       (run_trace
          (health_check (opts (JNum 50))
             [camera 1 "rtsp://a"; camera 3 "rtsp://c"])
          (start broken_probe))
     = [JStr "rtsp://a"; JStr "rtsp://c"]
  /\ omap verdict_of
       (run_trace
          (health_check (opts (JNum 50))
             [camera 1 "rtsp://a"; camera 3 "rtsp://c"])
          (start broken_probe))
     = [1; 2].
Proof.
  apply (one_camera_failure_never_stops_the_loop (opts (JNum 50))
           [camera 1 "rtsp://a"; camera 3 "rtsp://c"] (start broken_probe)).
  repeat constructor.
Defined.

Lemma probe_outcome_decides_status_witness :
  files (run_state
           (RtspBackendClient.health_check (opts (JNum 50))
              (client (opts (JNum 50))) (camera 1 "rtsp://a"))
           (start frame_then_nothing)) !! "health-check/1.json"
    = Some "status=OPEN"
  /\ files (run_state
             (RtspBackendClient.health_check (opts (JNum 50))
                (client (opts (JNum 50))) (camera 1 "rtsp://a"))
             (start frame_then_nothing)) !! "health-check/1.jpg"
     = Some "JPEG:F1".
Proof.
  destruct (probe_outcome_decides_status (RT := runtime) (opts (JNum 50))
              (client (opts (JNum 50))) (camera 1 "rtsp://a") true "F1"
              (start frame_then_nothing))
    as (_ & Hm & Hi & _).
  - exact scripted_disk_healthy.
  - reflexivity.
  - reflexivity.
  - split; [exact Hm | exact Hi].
Defined.

Lemma persist_twice_last_write_wins_witness :
  files (run_state
           (RtspBackendClient.health_check (opts (JNum 50))
              (client (opts (JNum 50))) (camera 1 "rtsp://b"))
           (run_state
              (RtspBackendClient.health_check (opts (JNum 50))
                 (client (opts (JNum 50))) (camera 1 "rtsp://a"))
              (start (Script [] [] [Ok (true, "F1"); Ok (true, "F2")]))))
    !! "health-check/1.jpg"
  = Some "JPEG:F2".
Proof.
  destruct (persist_twice_last_write_wins (RT := runtime) (opts (JNum 50))
              (client (opts (JNum 50)))
              (camera 1 "rtsp://a") (camera 1 "rtsp://b")
              true true "F1" "F2"
              (start (Script [] [] [Ok (true, "F1"); Ok (true, "F2")])))
    as (_ & Hi & _).
  - exact scripted_disk_healthy.
  - reflexivity.
  - reflexivity.
  - reflexivity.
  - reflexivity.
  - reflexivity.
  - exact Hi.
Defined.

(** C7 as stated fails.  Persisting [OPEN] and then [UNCONNECTED] for
    camera 1 leaves an image file that shows the earlier frame next to a
    metadata file that says [UNCONNECTED]; persisting [UNCONNECTED] twice
    leaves no image file at all. *)
Lemma stale_or_missing_image_after_two_persists :
  (files (run_state
            (RtspBackendClient.health_check (opts (JNum 50))
               (client (opts (JNum 50))) (camera 1 "rtsp://a"))
            (run_state
               (RtspBackendClient.health_check (opts (JNum 50))
                  (client (opts (JNum 50))) (camera 1 "rtsp://a"))
               (start frame_then_nothing)))
     !! "health-check/1.json" = Some "status=UNCONNECTED"
   /\ files (run_state
               (RtspBackendClient.health_check (opts (JNum 50))
                  (client (opts (JNum 50))) (camera 1 "rtsp://a"))
               (run_state
                  (RtspBackendClient.health_check (opts (JNum 50))
                     (client (opts (JNum 50))) (camera 1 "rtsp://a"))
                  (start frame_then_nothing)))
        !! "health-check/1.jpg" = Some "JPEG:F1")
  /\ ~ is_Some
        (files (run_state
                  (RtspBackendClient.health_check (opts (JNum 50))
                     (client (opts (JNum 50))) (camera 1 "rtsp://a"))
                  (run_state
                     (RtspBackendClient.health_check (opts (JNum 50))
                        (client (opts (JNum 50))) (camera 1 "rtsp://a"))
                     (start silent)))
           !! "health-check/1.jpg").
Proof.
  split; [split; vm_compute; reflexivity|].
  intros [x Hx]. vm_compute in Hx. discriminate.
Qed.

(** A whole cycle: camera 1 is persisted as [OPEN] with its image, camera 3
    as [UNCONNECTED] without one, and nothing is probed or written for
    id 2. *)
Example cycle_one_two_three :
  run_result
    (download_cameras_and_do_health_check (opts (JNum 50))
       (client (opts (JNum 50))) (JNum 50)) (start one_two_three) = Ok tt
  /\ omap capture_of
       (run_trace
          (download_cameras_and_do_health_check (opts (JNum 50))
             (client (opts (JNum 50))) (JNum 50)) (start one_two_three))
     = [JStr "rtsp://a"; JStr "rtsp://c"]
  /\ map (fun path =>
            files (run_state
                     (download_cameras_and_do_health_check (opts (JNum 50))
                        (client (opts (JNum 50))) (JNum 50))
                     (start one_two_three)) !! path)
         ["health-check/1.jpg"; "health-check/1.json";
          "health-check/2.jpg"; "health-check/2.json";
          "health-check/3.jpg"; "health-check/3.json"]
     = [Some "JPEG:F1"; Some "status=OPEN";
        None; None;
        None; Some "status=UNCONNECTED"].
Proof. repeat split; vm_compute; reflexivity. Qed.

End Runs.

(** * Further properties of the client methods *)

Section RequestOutcomes.
Context `{RT : Runtime}.
Local Open Scope py_scope.

Lemma get_all_camera_ids_run (self : backend_client) (s : state) :
  exists msgs,
    RtspBackendClient.get_all_camera_ids self s =
      (Ok (listed (fst (session_get
                          (self_rtsp_backend_url self ++ "/cameras/ids")
                          (world s)))),
       State (snd (session_get (self_rtsp_backend_url self ++ "/cameras/ids")
                     (world s)))
             (files s),
       EvGet (self_rtsp_backend_url self ++ "/cameras/ids")
         :: map EvPrint msgs).
Proof.
  unfold RtspBackendClient.get_all_camera_ids, listed, decoded. run_step.
  destruct (session_get _ (world s)) as [[resp|e] w']; simpl.
  - destruct (resp_ok resp); simpl.
    + destruct (resp_json resp) as [body|e]; simpl.
      * destruct (subscript body "cameraIds") as [v|e]; simpl.
        -- by exists [].
        -- by exists [MsgExn e].
      * by exists [MsgExn e].
    + by exists
        [MsgStatusCode (resp_status_code resp); MsgText (resp_text resp)].
  - by exists [MsgExn e].
Qed.

(** [get_all_camera_ids] never raises and never touches the disk.  It sends
    exactly one GET, to [<backend>/cameras/ids], and returns the [cameraIds]
    member of the decoded body; on a transport error, a non-success status,
    an undecodable body or a body without that member it returns [None]. *)
Theorem get_all_camera_ids_outcome (self : backend_client) (s : state) :
  exists msgs,
    RtspBackendClient.get_all_camera_ids self s =
      (Ok (listed (fst (session_get
                          (self_rtsp_backend_url self ++ "/cameras/ids")
                          (world s)))),
       State (snd (session_get (self_rtsp_backend_url self ++ "/cameras/ids")
                     (world s)))
             (files s),
       EvGet (self_rtsp_backend_url self ++ "/cameras/ids")
         :: map EvPrint msgs).
Proof. exact (get_all_camera_ids_run self s). Qed.

Lemma get_camera_run (self : backend_client)
    (camera_id camera_rtsp_url : json) (s : state) :
  truthy camera_id && truthy camera_rtsp_url = false ->
  exists msgs,
    RtspBackendClient.get_camera self camera_id camera_rtsp_url s =
      (Ok (decoded (fst (session_get
                           (query_url self camera_id camera_rtsp_url)
                           (world s)))),
       State (snd (session_get (query_url self camera_id camera_rtsp_url)
                     (world s)))
             (files s),
       EvGet (query_url self camera_id camera_rtsp_url) :: map EvPrint msgs).
Proof.
  intros H. unfold RtspBackendClient.get_camera, query_url, decoded.
  rewrite H. run_step.
  destruct (session_get _ (world s)) as [[resp|e] w']; simpl.
  - destruct (resp_ok resp); simpl.
    + destruct (resp_json resp) as [body|e]; simpl.
      * by exists [].
      * by exists [MsgExn e].
    + by exists
        [MsgStatusCode (resp_status_code resp); MsgText (resp_text resp)].
  - by exists [MsgExn e].
Qed.

(** Unless both arguments are truthy, [get_camera] never raises and never
    touches the disk: it sends one GET to the URL built from its arguments
    and returns the decoded body, or [None] when there is none. *)
Theorem get_camera_outcome (self : backend_client)
    (camera_id camera_rtsp_url : json) (s : state) :
  truthy camera_id && truthy camera_rtsp_url = false ->
  exists msgs,
    RtspBackendClient.get_camera self camera_id camera_rtsp_url s =
      (Ok (decoded (fst (session_get
                           (query_url self camera_id camera_rtsp_url)
                           (world s)))),
       State (snd (session_get (query_url self camera_id camera_rtsp_url)
                     (world s)))
             (files s),
       EvGet (query_url self camera_id camera_rtsp_url) :: map EvPrint msgs).
Proof. exact (get_camera_run self camera_id camera_rtsp_url s). Qed.


(** [update_camera] never raises and never touches the disk: after its one
    PUT it returns the decoded body, or [None] when the inventory refuses,
    cannot be reached or answers with something undecodable. *)
Theorem update_camera_outcome (options : Options) (self : backend_client)
    (camera : dict) (s : state) :
  exists msgs,
    RtspBackendClient.update_camera options self camera s =
      (Ok (decoded (fst (requests_put
                           (rtsp_backend_url options ++ "/cameras/import")
                           (JObj (RtspBackendClient.alias_url camera))
                           (world s)))),
       State (snd (requests_put
                     (rtsp_backend_url options ++ "/cameras/import")
                     (JObj (RtspBackendClient.alias_url camera)) (world s)))
             (files s),
       EvPut (rtsp_backend_url options ++ "/cameras/import")
             (JObj (RtspBackendClient.alias_url camera))
         :: map EvPrint msgs).
Proof.
  unfold RtspBackendClient.update_camera, decoded. run_step.
  destruct (requests_put _ _ (world s)) as [[resp|e] w']; simpl.
  - destruct (resp_ok resp); simpl.
    + destruct (resp_json resp) as [body|e]; simpl.
      * by exists [].
      * by exists [MsgExn e].
    + by exists
        [MsgStatusCode (resp_status_code resp); MsgText (resp_text resp)].
  - by exists [MsgExn e].
Qed.

End RequestOutcomes.

Section ReportBody.
Context `{RT : Runtime}.
Local Open Scope py_scope.

Lemma dict_get_set_same k v d : dict_get k (dict_set k v d) = Some v.
Proof.
  induction d as [|[k0 v0] d IH]; simpl.
  - by rewrite String.eqb_refl.
  - destruct (String.eqb_spec k k0) as [->|Hne]; simpl.
    + by rewrite String.eqb_refl.
    + destruct (String.eqb_spec k k0); [done|apply IH].
Qed.

Lemma alias_url_lookup camera k :
  dict_get k (RtspBackendClient.alias_url camera) =
    if String.eqb k "url"
    then match dict_get "url" camera with
         | Some u => Some u
         | None => dict_get "rtspUrl" camera
         end
    else dict_get k camera.
Proof.
  unfold RtspBackendClient.alias_url, dict_has.
  destruct (String.eqb_spec k "url") as [->|Hne].
  - destruct (dict_get "rtspUrl" camera) as [r|] eqn:Er;
      destruct (dict_get "url" camera) as [u|] eqn:Eu; simpl;
      rewrite ?Eu, ?dict_get_set_same; reflexivity.
  - destruct (dict_get "rtspUrl" camera) as [r|] eqn:Er;
      destruct (dict_get "url" camera) as [u|] eqn:Eu; simpl;
      rewrite ?dict_get_set_other by done; reflexivity.
Qed.

Lemma alias_url_idempotent camera :
  RtspBackendClient.alias_url (RtspBackendClient.alias_url camera)
  = RtspBackendClient.alias_url camera.
Proof.
  unfold RtspBackendClient.alias_url at 1. unfold dict_has.
  rewrite !alias_url_lookup. simpl.
  destruct (dict_get "url" camera) as [u|];
    destruct (dict_get "rtspUrl" camera) as [r|]; reflexivity.
Qed.

(** The body [update_camera] sends is the dictionary it was given, except
    that a missing ['url'] entry is filled in from ['rtspUrl'] when there is
    one; an existing ['url'] is never overwritten, every other entry is
    passed on as it is, and sending the body again would not change it. *)
Theorem update_camera_body (options : Options) (self : backend_client)
    (camera : dict) (s : state) :
  exists body msgs,
    run_trace (RtspBackendClient.update_camera options self camera) s =
      EvPut (rtsp_backend_url options ++ "/cameras/import") (JObj body)
        :: map EvPrint msgs
    /\ (forall k,
          dict_get k body =
            if String.eqb k "url"
            then match dict_get "url" camera with
                 | Some u => Some u
                 | None => dict_get "rtspUrl" camera
                 end
            else dict_get k camera)
    /\ RtspBackendClient.alias_url body = body.
Proof.
  destruct (update_camera_run options self camera s) as (r & w' & msgs & E).
  exists (RtspBackendClient.alias_url camera), msgs.
  unfold run_trace. rewrite E. split; [reflexivity|]. split.
  - intros k. apply alias_url_lookup.
  - apply alias_url_idempotent.
Qed.

End ReportBody.

(** * Further properties of the probe and of the loop *)

Section ProbeEdges.
Context `{RT : Runtime}.
Local Open Scope py_scope.

(** An exception leaves [health_check] exactly when the record has no
    ['rtspUrl'] to read (a missing key, or a value that is no dictionary):
    the lookup sits before the [try].  In that case nothing has happened
    yet: no probe, no output, no change of state. *)
Theorem health_check_raises_iff_no_rtsp_url (options : Options)
    (self : backend_client) (camera : json) (s : state) :
  is_raise (run_result (RtspBackendClient.health_check options self camera) s)
    = negb (has_field camera "rtspUrl")
  /\ (forall e, subscript camera "rtspUrl" = Raise e ->
        RtspBackendClient.health_check options self camera s
          = (Raise e, s, [])).
Proof.
  split.
  - unfold has_field.
    destruct (subscript camera "rtspUrl") as [url|e] eqn:Hurl; simpl.
    + assert (Hf : has_field camera "rtspUrl" = true)
        by (unfold has_field; by rewrite Hurl).
      destruct (health_check_one_probe options self camera s Hf)
        as (r & s1 & t & E & _).
      unfold run_result. by rewrite E.
    + unfold RtspBackendClient.health_check, run_result. by rewrite Hurl.
  - intros e Hurl. unfold RtspBackendClient.health_check. by rewrite Hurl.
Qed.

Lemma report_line_raise is_updated camera i n s :
  has_fields ["cameraId"; "rtspUrl"; "status"] camera = false ->
  exists e, report_line is_updated camera i n s = (Raise e, s, []).
Proof.
  unfold has_fields, has_field, report_line. simpl. intros H.
  destruct (subscript camera "cameraId") as [id|e]; [|by exists e].
  destruct (subscript camera "rtspUrl") as [url|e]; [|by exists e].
  destruct (subscript camera "status") as [st|e]; [|by exists e].
  discriminate.
Qed.

(** A record that has its ['rtspUrl'] but lacks ['cameraId'] or ['status']
    is probed like any other; the verdict line then fails to format and the
    exception leaves the loop: no verdict is printed and none of the
    cameras behind it is probed. *)
Theorem unprintable_record_aborts_loop (options : Options) (camera : json)
    (rest : list json) (s : state) :
  has_field camera "rtspUrl" = true ->
  has_fields ["cameraId"; "rtspUrl"; "status"] camera = false ->
  is_raise (run_result (health_check options (camera :: rest)) s) = true
  /\ omap capture_of (run_trace (health_check options (camera :: rest)) s)
     = [field camera "rtspUrl"]
  /\ omap verdict_of (run_trace (health_check options (camera :: rest)) s)
     = [].
Proof.
  intros Hurl Hmiss.
  destruct (health_check_one_probe options (client options) camera s Hurl)
    as (r & s1 & t & E & Hq).
  destruct (report_line_raise r camera 0 (length (camera :: rest)) s1 Hmiss)
    as (e & Eline).
  destruct (quiet_omap t Hq) as [Hc0 Hv0].
  assert (Erun : health_check options (camera :: rest) s =
                 (Raise e, s1,
                  EvPrint (MsgFound (length (camera :: rest)))
                    :: EvCapture (field camera "rtspUrl") :: t)).
  { unfold health_check. cbn [health_check_from].
    cbv beta iota zeta delta [bind print emit].
    rewrite E. cbv beta iota. rewrite Eline. cbn [app].
    by rewrite app_nil_r. }
  unfold run_result, run_trace. rewrite Erun.
  cbn [fst snd omap list_omap capture_of verdict_of is_raise].
  rewrite Hc0, Hv0. done.
Qed.

Lemma report_line_shown is_updated camera i n s :
  has_fields ["cameraId"; "rtspUrl"; "status"] camera = true ->
  exists msg,
    report_line is_updated camera i n s = (Ok tt, s, [EvPrint msg])
    /\ verdict_shown (EvPrint msg)
       = Some (field camera "cameraId", field camera "rtspUrl",
               field camera "status").
Proof.
  unfold has_fields. simpl. rewrite !andb_true_iff.
  intros (H1 & H2 & H3 & _).
  apply has_field_subscript in H1, H2, H3.
  unfold report_line. rewrite H1, H2, H3. run_step.
  destruct (truthy is_updated); eexists; split; reflexivity.
Qed.

Lemma quiet_not_shown (t : list event) :
  Forall quiet t -> omap verdict_shown t = [].
Proof.
  induction 1 as [|ev t Hev _ IH]; [done|].
  destruct ev as [[]| | | | | | | |]; simpl in *; done.
Qed.

Lemma health_check_from_shown options n i cameras s :
  Forall (fun camera =>
            has_fields ["cameraId"; "rtspUrl"; "status"] camera = true)
         cameras ->
  omap verdict_shown (run_trace (health_check_from options n i cameras) s)
  = map (fun camera => (field camera "cameraId", field camera "rtspUrl",
                        field camera "status")) cameras.
Proof.
  intros Hall. revert i s.
  induction Hall as [|camera rest Hcam _ IH]; intros i s; [done|].
  assert (Hurl : has_field camera "rtspUrl" = true).
  { unfold has_fields in Hcam. simpl in Hcam.
    rewrite !andb_true_iff in Hcam. tauto. }
  destruct (health_check_one_probe options (client options) camera s Hurl)
    as (r & s1 & t & E & Hq).
  destruct (report_line_shown r camera i n s1 Hcam) as (msg & Eline & Hv).
  specialize (IH (S i) s1).
  cbn [health_check_from]. unfold run_trace in *.
  rewrite (bind_ok _ _ s r s1 _ E).
  unfold run_result, run_state, run_trace.
  rewrite (bind_ok _ _ s1 tt s1 _ Eline).
  unfold run_result, run_state, run_trace. cbn [fst snd].
  rewrite !omap_app, IH. cbn [omap list_omap].
  rewrite (quiet_not_shown t Hq). rewrite Hv. reflexivity.
Qed.

(** The status printed in a camera's verdict line is the one stored in the
    inventory record, whatever the probe has just found; the lines come in
    the order of the cameras, one per camera. *)
Theorem verdict_lines_show_stored_status (options : Options)
    (cameras : list json) (s : state) :
  Forall (fun camera =>
            has_fields ["cameraId"; "rtspUrl"; "status"] camera = true)
         cameras ->
  omap verdict_shown (run_trace (health_check options cameras) s)
  = map (fun camera => (field camera "cameraId", field camera "rtspUrl",
                        field camera "status")) cameras.
Proof.
  intros Hall.
  pose proof (health_check_from_shown options (length cameras) 0 cameras s Hall)
    as H.
  unfold health_check, run_trace in *. unfold bind, print, emit.
  destruct (health_check_from options (length cameras) 0 cameras s)
    as [[r' s'] t'].
  simpl in *. exact H.
Qed.

End ProbeEdges.

(** * What a probe can do to the disk *)

Section DiskFacts.
Context `{RT : Runtime}.
Local Open Scope py_scope.

Lemma writes_within_ret {A} P (a : A) : writes_within P (ret a).
Proof. by intros s path _. Qed.

Lemma writes_within_lift {A} P (r : result A) : writes_within P (lift r).
Proof. destruct r; by intros s path _. Qed.

Lemma writes_within_emit P ev : writes_within P (emit ev).
Proof. by intros s path _. Qed.

Lemma writes_within_ask {A} P (f : W -> result A * W) :
  writes_within P (ask f).
Proof.
  intros s path _. unfold run_state, ask. by destruct (f (world s)).
Qed.

Lemma writes_within_check P f : writes_within P (check f).
Proof.
  intros s path _. unfold run_state, check.
  by destruct (f (world s)) as [[e|] w].
Qed.

Lemma writes_within_store (P : string -> Prop) path contents :
  P path -> writes_within P (store path contents).
Proof.
  intros HP s path' Hnot. unfold run_state, store. simpl.
  apply lookup_insert_ne. by intros ->.
Qed.

Lemma writes_within_bind_post {A B} P (Q : A -> Prop) (m : M A)
    (k : A -> M B) :
  writes_within P m -> returns Q m ->
  (forall a, Q a -> writes_within P (k a)) ->
  writes_within P (bind m k).
Proof.
  intros Hm HQ Hk s path Hnot.
  specialize (Hm s path Hnot). specialize (HQ s).
  unfold run_state, run_result in *. unfold bind.
  destruct (m s) as [[[a|e] s1] t1]; simpl in *; [|done].
  specialize (Hk a (HQ a eq_refl) s1 path Hnot). unfold run_state in Hk.
  destruct (k a s1) as [[r s2] t2]; simpl in *. congruence.
Qed.

Lemma writes_within_bind {A B} P (m : M A) (k : A -> M B) :
  writes_within P m -> (forall a, writes_within P (k a)) ->
  writes_within P (bind m k).
Proof.
  intros Hm Hk.
  apply (writes_within_bind_post P (fun _ => True)); [done|done|auto].
Qed.

Lemma writes_within_try {A} P (m : M A) h :
  writes_within P m -> (forall e, writes_within P (h e)) ->
  writes_within P (try_except m h).
Proof.
  intros Hm Hh s path Hnot. specialize (Hm s path Hnot).
  unfold run_state in *. unfold try_except.
  destruct (m s) as [[[a|e] s1] t1]; simpl in *; [done|].
  specialize (Hh e s1 path Hnot). unfold run_state in Hh.
  destruct (h e s1) as [[r s2] t2]; simpl in *. congruence.
Qed.

Lemma writes_within_imwrite (P : string -> Prop) path fr :
  P path -> writes_within P (imwrite path fr).
Proof.
  intros HP. unfold imwrite.
  apply writes_within_bind; [apply writes_within_emit | intros _].
  apply writes_within_bind; [apply writes_within_ask | intros written].
  apply writes_within_bind; [|intros; apply writes_within_ret].
  destruct written; [by apply writes_within_store | apply writes_within_ret].
Qed.

Lemma writes_within_read_file P path : writes_within P (read_file path).
Proof.
  unfold read_file.
  apply writes_within_bind; [apply writes_within_emit | intros _].
  intros s path' Hnot. unfold run_state.
  destruct (files s !! path) as [contents|]; [|done].
  apply (writes_within_bind P (check (open_rb_fault path))
           (fun _ => ret contents));
    [apply writes_within_check | intros; apply writes_within_ret | done].
Qed.

Lemma writes_within_open_w (P : string -> Prop) path :
  P path -> writes_within P (open_w path).
Proof.
  intros HP. unfold open_w.
  apply writes_within_bind; [apply writes_within_emit | intros _].
  apply writes_within_bind; [apply writes_within_check | intros _].
  by apply writes_within_store.
Qed.

Lemma writes_within_json_dump (P : string -> Prop) path v :
  P path -> writes_within P (json_dump path v).
Proof.
  intros HP. unfold json_dump.
  apply writes_within_bind; [apply writes_within_emit | intros _].
  apply writes_within_bind; [apply writes_within_check | intros _].
  by apply writes_within_store.
Qed.

Lemma writes_within_update_camera P options self camera :
  writes_within P (RtspBackendClient.update_camera options self camera).
Proof.
  intros s path _.
  destruct (update_camera_run options self camera s) as (r & w' & msgs & E).
  unfold run_state. by rewrite E.
Qed.

Lemma writes_within_handler P (e : exn) :
  writes_within P (print (MsgExn e) ;; ret None_).
Proof.
  apply writes_within_bind; [apply writes_within_emit | intros _].
  apply writes_within_ret.
Qed.

Lemma artifact_path_image self camera :
  returns (fun path => path = image_path self camera)
          (RtspBackendClient.artifact_path self camera ".jpg").
Proof.
  intros s path. unfold RtspBackendClient.artifact_path, image_path, field.
  run_step. destruct (subscript camera "cameraId"); simpl; [|discriminate].
  by intros [= <-].
Qed.

Lemma artifact_path_metadata self camera :
  returns (fun path => path = metadata_path self camera)
          (RtspBackendClient.artifact_path self camera ".json").
Proof.
  intros s path. unfold RtspBackendClient.artifact_path, metadata_path, field.
  run_step. destruct (subscript camera "cameraId"); simpl; [|discriminate].
  by intros [= <-].
Qed.

Lemma writes_within_artifact_path P self camera ext :
  writes_within P (RtspBackendClient.artifact_path self camera ext).
Proof.
  unfold RtspBackendClient.artifact_path.
  apply writes_within_bind; [apply writes_within_lift | intros].
  apply writes_within_ret.
Qed.

Lemma writes_within_camera_to_save P camera status :
  writes_within P (RtspBackendClient.camera_to_save camera status).
Proof.
  unfold RtspBackendClient.camera_to_save.
  repeat (apply writes_within_bind; [apply writes_within_lift | intros]).
  apply writes_within_ret.
Qed.

Lemma health_check_writes_within options self camera :
  writes_within
    (fun path => path = image_path self camera
                 \/ path = metadata_path self camera)
    (RtspBackendClient.health_check options self camera).
Proof.
  set (P := fun path => path = image_path self camera
                        \/ path = metadata_path self camera).
  unfold RtspBackendClient.health_check.
  apply writes_within_bind; [apply writes_within_lift | intros camera_url].
  apply writes_within_try; [|intros e; apply writes_within_handler].
  apply writes_within_bind;
    [unfold video_capture_read;
     apply writes_within_bind;
       [apply writes_within_emit | intros; apply writes_within_ask]
    | intros [is_connected fr]].
  destruct is_connected.
  - eapply writes_within_bind_post;
      [apply writes_within_artifact_path | apply artifact_path_image
      | intros img ->].
    apply writes_within_bind;
      [apply writes_within_imwrite; by left | intros _].
    apply writes_within_bind; [apply writes_within_read_file | intros bytes].
    apply writes_within_bind; [apply writes_within_lift | intros url].
    eapply writes_within_bind_post;
      [apply writes_within_artifact_path | apply artifact_path_metadata
      | intros meta ->].
    apply writes_within_bind;
      [apply writes_within_open_w; by right | intros _].
    apply writes_within_bind;
      [apply writes_within_camera_to_save | intros to_save].
    apply writes_within_bind;
      [apply writes_within_json_dump; by right | intros _].
    apply writes_within_update_camera.
  - apply writes_within_bind; [apply writes_within_lift | intros url].
    apply writes_within_bind; [apply writes_within_lift | intros labels].
    eapply writes_within_bind_post;
      [apply writes_within_artifact_path | apply artifact_path_metadata
      | intros meta ->].
    apply writes_within_bind;
      [apply writes_within_open_w; by right | intros _].
    apply writes_within_bind;
      [apply writes_within_camera_to_save | intros to_save].
    apply writes_within_bind;
      [apply writes_within_json_dump; by right | intros _].
    apply writes_within_update_camera.
Qed.

(** Whatever the camera, the disk and the inventory do, probing a camera
    changes at most two files: its image and its metadata file.  Every
    other path holds afterwards what it held before. *)
Theorem health_check_touches_only_own_artifacts (options : Options)
    (self : backend_client) (camera : json) (s : state) (path : string) :
  path <> image_path self camera ->
  path <> metadata_path self camera ->
  files (run_state (RtspBackendClient.health_check options self camera) s)
    !! path
  = files s !! path.
Proof.
  intros Hi Hm. apply (health_check_writes_within options self camera).
  intros [H|H]; contradiction.
Qed.

End DiskFacts.

Section PathFacts.
Context `{RT : Runtime}.

Lemma list_ascii_of_string_app (a b : string) :
  String.list_ascii_of_string (a ++ b)
  = (String.list_ascii_of_string a ++ String.list_ascii_of_string b)%list.
Proof. induction a as [|c a IH]; simpl; [done|]. by rewrite IH. Qed.

Lemma list_ascii_of_string_inj (a b : string) :
  String.list_ascii_of_string a = String.list_ascii_of_string b -> a = b.
Proof.
  intros H. apply (f_equal String.string_of_list_ascii) in H.
  by rewrite !String.string_of_list_ascii_of_string in H.
Qed.

Lemma append_inj_l (a b x : string) : a ++ x = b ++ x -> a = b.
Proof.
  intros H. apply (f_equal String.list_ascii_of_string) in H.
  rewrite !list_ascii_of_string_app in H.
  apply app_inv_tail in H. by apply list_ascii_of_string_inj.
Qed.

Lemma jpg_is_not_json (a b : string) : a ++ ".jpg" <> b ++ ".json".
Proof.
  intros H. apply (f_equal String.list_ascii_of_string) in H.
  rewrite !list_ascii_of_string_app in H.
  change (String.list_ascii_of_string ".jpg")
    with (String.list_ascii_of_string ".jp" ++ String.list_ascii_of_string "g")%list in H.
  change (String.list_ascii_of_string ".json")
    with (String.list_ascii_of_string ".jso" ++ String.list_ascii_of_string "n")%list in H.
  rewrite !app_assoc in H. apply app_inj_tail in H as [_ H]. discriminate.
Qed.

(** Cameras whose ids print differently have four different artifact
    paths between them. *)
Lemma artifact_paths_disjoint self camera other :
  py_str (field camera "cameraId") <> py_str (field other "cameraId") ->
  image_path self camera <> image_path self other
  /\ image_path self camera <> metadata_path self other
  /\ metadata_path self camera <> image_path self other
  /\ metadata_path self camera <> metadata_path self other.
Proof.
  intros Hne. unfold image_path, metadata_path.
  repeat split; intros H; do 2 apply append_inj_r in H.
  - by apply append_inj_l in H.
  - by apply jpg_is_not_json in H.
  - symmetry in H. by apply jpg_is_not_json in H.
  - by apply append_inj_l in H.
Qed.

End PathFacts.

(** Probing one camera leaves the artifacts of every camera with another id
    alone: whatever happens during the probe of [other], the image and the
    metadata file of [camera] hold afterwards what they held before. *)
Theorem probe_spares_other_cameras `{RT : Runtime} (options : Options)
    (self : backend_client) (camera other : json) (s : state) :
  py_str (field camera "cameraId") <> py_str (field other "cameraId") ->
  files (run_state (RtspBackendClient.health_check options self other) s)
    !! image_path self camera
  = files s !! image_path self camera
  /\ files (run_state (RtspBackendClient.health_check options self other) s)
       !! metadata_path self camera
     = files s !! metadata_path self camera.
Proof.
  intros Hne.
  destruct (artifact_paths_disjoint self camera other Hne)
    as (H1 & H2 & H3 & H4).
  split; apply (health_check_writes_within options self other);
    intros [H|H]; congruence.
Qed.

(** * When a write goes wrong *)

Section WriteFailures.
Context `{RT : Runtime}.
Local Open Scope py_scope.

(** [cv2.imwrite] reports failure through its return value, which
    [health_check] does not look at.  If an image of the same camera is
    still on disk from an earlier cycle, that old image is read back and
    sent to the inventory with status ['OPEN'], and the metadata file says
    ['OPEN'] too; the image file itself stays as it was.  If there is no
    such file, reading it back fails, the exception is caught and printed,
    and nothing is written or reported. *)
Theorem unwritten_image_is_replaced_by_earlier_one (options : Options)
    (self : backend_client) (camera : json) (fr : frame) (s : state) :
  (forall path w, fst (open_rb_fault path w) = None) ->
  (forall path w, fst (open_w_fault path w) = None) ->
  (forall path w, fst (write_fault path w) = None) ->
  has_fields saved_fields camera = true ->
  fst (capture_read (field camera "rtspUrl") (world s)) = Ok (true, fr) ->
  fst (cv2_imwrite (image_path self camera) fr
         (snd (capture_read (field camera "rtspUrl") (world s))))
    = Ok false ->
  match files s !! image_path self camera with
  | Some earlier =>
      exists r w' msgs,
        RtspBackendClient.health_check options self camera s =
          (Ok r,
           State w' (<[metadata_path self camera :=
                         json_dumps (metadata camera "OPEN")]> (files s)),
           ([EvCapture (field camera "rtspUrl");
             EvImwrite (image_path self camera) fr;
             EvOpenRead (image_path self camera);
             EvOpenWrite (metadata_path self camera);
             EvDump (metadata_path self camera) (metadata camera "OPEN");
             EvPut (rtsp_backend_url options ++ "/cameras/import")
                   (JObj [("status", JStr "OPEN");
                          ("url", field camera "rtspUrl");
                          ("base64ImageData", JStr (b64encode earlier))])]
            ++ map EvPrint msgs)%list)
  | None =>
      exists w',
        RtspBackendClient.health_check options self camera s =
          (Ok None_, State w' (files s),
           [EvCapture (field camera "rtspUrl");
            EvImwrite (image_path self camera) fr;
            EvOpenRead (image_path self camera);
            EvPrint (MsgExn (LibraryError "FileNotFoundError"))])
  end.
Proof.
  intros Hrb Hw Hwr Hf Hread Himw.
  apply has_fields_cons in Hf as [Hurl Hf].
  apply has_fields_cons in Hf as [Hid Hf].
  apply has_fields_cons in Hf as [Hcc Hf].
  apply has_fields_cons in Hf as [Hcn Hf].
  apply has_fields_cons in Hf as [Hcity _].
  unfold image_path, metadata_path in *.
  unfold RtspBackendClient.health_check, RtspBackendClient.artifact_path,
    RtspBackendClient.camera_to_save.
  rewrite Hurl, Hid, Hcc, Hcn, Hcity. run_step.
  destruct (capture_read _ (world s)) as [r1 w1]. simpl in Hread, Himw.
  subst r1. reduce.
  destruct (cv2_imwrite _ fr w1) as [r2 w2]. simpl in Himw. subst r2. reduce.
  destruct (files s !! _) as [earlier|].
  - healthy Hrb. healthy Hw. simpl (subscript (JObj _) _). reduce.
    healthy Hwr. rewrite insert_insert_eq.
    match goal with
    | |- context [RtspBackendClient.update_camera options self ?d ?s1] =>
        destruct (update_camera_run options self d s1) as (r & w' & msgs & E);
        rewrite E
    end.
    exists r, w', msgs. reflexivity.
  - by exists w2.
Qed.

(** A frame was read, but the record lacks one of the location fields.
    The image is on disk by then and the metadata file has been opened for
    writing, so it is left empty; the [KeyError] is caught and printed, and
    no report is sent. *)
Theorem missing_location_field_leaves_empty_metadata (options : Options)
    (self : backend_client) (camera : json) (fr : frame) (s : state) :
  disk_healthy ->
  has_fields ["rtspUrl"; "cameraId"] camera = true ->
  has_fields ["countryCode"; "countryName"; "city"] camera = false ->
  fst (capture_read (field camera "rtspUrl") (world s)) = Ok (true, fr) ->
  exists e w',
    RtspBackendClient.health_check options self camera s =
      (Ok None_,
       State w' (<[metadata_path self camera := EmptyString]>
                 (<[image_path self camera := imencode fr]> (files s))),
       [EvCapture (field camera "rtspUrl");
        EvImwrite (image_path self camera) fr;
        EvOpenRead (image_path self camera);
        EvOpenWrite (metadata_path self camera);
        EvPrint (MsgExn e)]).
Proof.
  intros (Himw & Hrb & Hw & Hwr) Hf Hmiss Hread.
  apply has_fields_cons in Hf as [Hurl Hf].
  apply has_fields_cons in Hf as [Hid _].
  unfold has_fields, has_field in Hmiss. simpl in Hmiss.
  unfold image_path, metadata_path.
  unfold RtspBackendClient.health_check, RtspBackendClient.artifact_path,
    RtspBackendClient.camera_to_save.
  rewrite Hurl, Hid. run_step.
  destruct (capture_read _ (world s)) as [r1 w1]. simpl in Hread. subst r1.
  reduce. healthy Himw. rewrite lookup_insert_eq.
  healthy Hrb. healthy Hw.
  destruct (subscript camera "countryCode") as [cc|e]; [|by exists e, w2].
  destruct (subscript camera "countryName") as [cn|e]; [|by exists e, w2].
  destruct (subscript camera "city") as [city|e]; [|by exists e, w2].
  discriminate.
Qed.

End WriteFailures.

Section ReportOrder.
Context `{RT : Runtime}.
Local Open Scope py_scope.

Ltac no_put :=
  let H := fresh in
  intros H; cbn [In app map] in H;
  repeat match type of H with
         | _ \/ _ => destruct H as [H|H]
         end;
  first [discriminate H | contradiction H].

Lemma not_in_prints url body msgs : ~ In (EvPut url body) (map EvPrint msgs).
Proof. induction msgs as [|m msgs IH]; simpl; [tauto|]. intros [H|H]; [discriminate|tauto]. Qed.

Ltac sent st :=
  match goal with
  | |- context [RtspBackendClient.update_camera ?o ?c ?d ?s1] =>
      let r := fresh "r" in
      let w' := fresh "w'" in
      let msgs := fresh "msgs" in
      let E := fresh "E" in
      let H := fresh "H" in
      destruct (update_camera_run o c d s1) as (r & w' & msgs & E);
      rewrite E; reduce; intros H; exists st;
      split; [tauto|]; split;
      [ cbn [In app] in H;
        repeat match type of H with
               | _ \/ _ => destruct H as [H|H]
               end;
        try discriminate H;
        [ injection H as _ <-; by rewrite alias_url_status
        | by apply not_in_prints in H ]
      | apply lookup_insert_eq ]
  end.

(** A report is only ever sent after the metadata file has been written:
    whenever the run of [health_check] contains a PUT, whatever else the
    world did, the body carries ['OPEN'] or ['UNCONNECTED'] and the metadata
    file of the camera holds the record with that same status. *)
Theorem report_follows_metadata (options : Options)
    (self : backend_client) (camera : json) (s : state)
    (url : string) (body : json) :
  In (EvPut url body)
     (run_trace (RtspBackendClient.health_check options self camera) s) ->
  exists st,
    (st = "OPEN" \/ st = "UNCONNECTED")
    /\ subscript body "status" = Ok (JStr st)
    /\ files (run_state (RtspBackendClient.health_check options self camera) s)
         !! metadata_path self camera
       = Some (json_dumps (metadata camera st)).
Proof.
  unfold metadata_path, metadata, field.
  unfold RtspBackendClient.health_check, RtspBackendClient.artifact_path,
    RtspBackendClient.camera_to_save.
  destruct (subscript camera "rtspUrl") as [u|e]; run_step; [|no_put].
  destruct (capture_read u (world s)) as [[[[] fr]|e] w1]; reduce; [| |no_put].
  - destruct (subscript camera "cameraId") as [id|e]; reduce; [|no_put].
    destruct (cv2_imwrite _ fr w1) as [[written|e] w2]; reduce; [|no_put].
    destruct written; reduce;
      (destruct (_ !! _) as [contents|]; reduce; [|no_put];
       destruct (open_rb_fault _ _) as [[e|] w3]; reduce; [no_put|];
       destruct (open_w_fault _ _) as [[e|] w4]; reduce; [no_put|];
       simpl (subscript (JObj _) _); reduce;
       destruct (subscript camera "countryCode") as [cc|e]; reduce; [|no_put];
       destruct (subscript camera "countryName") as [cn|e]; reduce; [|no_put];
       destruct (subscript camera "city") as [city|e]; reduce; [|no_put];
       destruct (write_fault _ _) as [[e|] w5]; reduce; [no_put|];
       sent "OPEN").
  - destruct (subscript camera "labels") as [labels|e]; reduce; [|no_put].
    destruct (subscript camera "cameraId") as [id|e]; reduce; [|no_put].
    destruct (open_w_fault _ _) as [[e|] w4]; reduce; [no_put|].
    destruct (subscript camera "countryCode") as [cc|e]; reduce; [|no_put].
    destruct (subscript camera "countryName") as [cn|e]; reduce; [|no_put].
    destruct (subscript camera "city") as [city|e]; reduce; [|no_put].
    destruct (write_fault _ _) as [[e|] w5]; reduce; [no_put|].
    sent "UNCONNECTED".
Qed.

End ReportOrder.

(** * Further properties of the cycle *)

Section FetchLoop.
Context `{RT : Runtime}.
Local Open Scope py_scope.

Lemma fetch_from_run self n i camera_ids cameras s :
  exists new,
    run_result (fetch_from self n i camera_ids cameras) s
      = Ok (cameras ++ new)%list
    /\ Forall (fun camera => truthy camera = true) new
    /\ length new <= length camera_ids
    /\ omap get_of (run_trace (fetch_from self n i camera_ids cameras) s)
       = map (fetch_url self) camera_ids
    /\ files (run_state (fetch_from self n i camera_ids cameras) s)
       = files s.
Proof.
  revert i cameras s.
  induction camera_ids as [|camera_id rest IH]; intros i cameras s.
  - exists []. simpl. rewrite app_nil_r. repeat split; constructor.
  - destruct (get_camera_run self camera_id None_ s) as (msgs & E).
    { simpl. apply andb_false_r. }
    set (camera := decoded _) in E. set (s1 := State _ _) in E.
    destruct (IH (S i)
                (if truthy camera then (cameras ++ [camera])%list else cameras)
                s1) as (new & Hr & Hnew & Hlen & Hget & Hfiles).
    assert (Erun :
      fetch_from self n i (camera_id :: rest) cameras s =
        (run_result (fetch_from self n (S i) rest
                       (if truthy camera then (cameras ++ [camera])%list
                        else cameras)) s1,
         run_state (fetch_from self n (S i) rest
                      (if truthy camera then (cameras ++ [camera])%list
                       else cameras)) s1,
         EvPrint (MsgAsking (i + 1) n)
           :: EvGet (query_url self camera_id None_)
           :: (map EvPrint msgs
               ++ run_trace (fetch_from self n (S i) rest
                               (if truthy camera
                                then (cameras ++ [camera])%list
                                else cameras)) s1)%list)).
    { cbn [fetch_from]. unfold bind at 1, print, emit.
      rewrite (bind_ok _ _ s camera s1 _ E). reflexivity. }
    exists (if truthy camera then camera :: new else new).
    unfold run_result, run_state, run_trace in *. rewrite Erun.
    cbn [fst snd]. rewrite Hr, Hfiles.
    repeat split.
    + destruct (truthy camera); [by rewrite <- app_assoc | done].
    + destruct (truthy camera) eqn:Ht; [by constructor | done].
    + destruct (truthy camera); simpl; lia.
    + cbn [omap list_omap get_of]. rewrite omap_app, Hget.
      replace (omap get_of (map EvPrint msgs)) with (@nil string);
        [reflexivity|].
      clear. induction msgs as [|m msgs IH]; [done|]. by simpl.
Qed.


(** The inventory answers the listing with an empty list: the cycle ends
    normally after its two "no cameras" lines; it has fetched no record,
    probed nothing and left the disk alone. *)
Theorem empty_listing_completes_cycle (options : Options)
    (c : backend_client) (threads : json) (s : state) :
  listed (fst (session_get (self_rtsp_backend_url c ++ "/cameras/ids")
                 (world s))) = JArr [] ->
  download_cameras_and_do_health_check options c threads s =
    (Ok tt,
     State (snd (session_get (self_rtsp_backend_url c ++ "/cameras/ids")
                   (world s)))
           (files s),
     [EvPrint MsgDownloading;
      EvGet (self_rtsp_backend_url c ++ "/cameras/ids");
      EvPrint MsgNoneDownloaded;
      EvPrint MsgNonePassed]).
Proof.
  intros H. unfold download_cameras_and_do_health_check.
  unfold RtspBackendClient.get_all_camera_ids.
  unfold listed, decoded in H. run_step.
  destruct (session_get _ (world s)) as [[resp|e] w']; simpl in *;
    [|discriminate].
  destruct (resp_ok resp); simpl in *; [|discriminate].
  destruct (resp_json resp) as [body|e]; simpl in *; [|discriminate].
  destruct (subscript body "cameraIds") as [v|e]; simpl in *; [|discriminate].
  subst v. reflexivity.
Qed.

End FetchLoop.

Section CyclePhases.
Context `{RT : Runtime}.
Local Open Scope py_scope.

Lemma phased_bind {A B} P Q (m : M A) (k : A -> M B) :
  emits P m -> (forall a, phased P Q (k a)) -> phased P Q (bind m k).
Proof.
  intros Hm Hk s. specialize (Hm s). unfold run_trace in *. unfold bind.
  destruct (m s) as [[[a|e] s1] t1]; simpl in *.
  - destruct (Hk a s1) as (u1 & u2 & E & H1 & H2). unfold run_trace in E.
    destruct (k a s1) as [[r s2] t2]. simpl in *. subst t2.
    exists (t1 ++ u1)%list, u2. rewrite app_assoc.
    split; [done|]. split; [by apply Forall_app|done].
  - exists t1, []. rewrite app_nil_r. by repeat split.
Qed.

Lemma phased_first {A} P Q (m : M A) : emits P m -> phased P Q m.
Proof.
  intros Hm s. exists (run_trace m s), []. rewrite app_nil_r.
  by repeat split.
Qed.

Lemma phased_second {A} P Q (m : M A) : emits Q m -> phased P Q m.
Proof. intros Hm s. exists [], (run_trace m s). by repeat split. Qed.

Lemma get_camera_asks_only self camera_id camera_rtsp_url :
  emits asks_only (RtspBackendClient.get_camera self camera_id camera_rtsp_url).
Proof. unfold RtspBackendClient.get_camera. emits_walk. Qed.

Lemma get_all_camera_ids_asks_only self :
  emits asks_only (RtspBackendClient.get_all_camera_ids self).
Proof. unfold RtspBackendClient.get_all_camera_ids. emits_walk. Qed.

Lemma fetch_from_asks_only self n i camera_ids cameras :
  emits asks_only (fetch_from self n i camera_ids cameras).
Proof.
  revert i cameras.
  induction camera_ids as [|camera_id rest IH]; intros i cameras; simpl.
  - apply emits_ret.
  - apply emits_bind; [emits_walk | intros _].
    apply emits_bind; [apply get_camera_asks_only | intros camera]. apply IH.
Qed.

Lemma health_check_probes_only options self camera :
  emits probes_only (RtspBackendClient.health_check options self camera).
Proof.
  unfold RtspBackendClient.health_check, RtspBackendClient.artifact_path,
    RtspBackendClient.camera_to_save.
  emits_walk; apply emits_update_camera; done.
Qed.

Lemma health_check_from_probes_only options n i cameras :
  emits probes_only (health_check_from options n i cameras).
Proof.
  revert i. induction cameras as [|camera rest IH]; intros i; simpl.
  - apply emits_ret.
  - apply emits_bind; [apply health_check_probes_only | intros u].
    apply emits_bind; [unfold report_line; emits_walk | intros _]. apply IH.
Qed.

Lemma cycle_phased options c threads :
  phased asks_only probes_only
         (download_cameras_and_do_health_check options c threads).
Proof.
  unfold download_cameras_and_do_health_check.
  apply phased_bind; [emits_walk | intros _].
  apply phased_bind; [apply get_all_camera_ids_asks_only | intros camera_ids].
  apply phased_bind; [emits_walk | intros _].
  apply phased_bind; [emits_walk | intros ids].
  apply phased_bind; [apply fetch_from_asks_only | intros cameras].
  destruct cameras; [apply phased_first; emits_walk|].
  apply phased_second. unfold health_check.
  apply emits_bind; [emits_walk | intros _].
  apply health_check_from_probes_only.
Qed.

(** A cycle has two phases.  First it only prints and sends GETs: the
    listing and the fetch of every record.  Everything else (probes, file
    writes, reports) comes after the last GET; no record is fetched again
    once the first camera is being probed. *)
Theorem cycle_fetches_everything_before_probing (options : Options)
    (c : backend_client) (threads : json) (s : state) :
  exists fetching probing,
    run_trace (download_cameras_and_do_health_check options c threads) s
      = (fetching ++ probing)%list
    /\ Forall asks_only fetching
    /\ Forall probes_only probing.
Proof. apply cycle_phased. Qed.

Lemma never_sleeps_omap (t : list event) :
  Forall never_sleeps t -> omap sleep_of t = [].
Proof.
  induction 1 as [|ev t Hev _ IH]; [done|]. by destruct ev.
Qed.

Lemma cycle_never_sleeps options c threads s :
  omap sleep_of
    (run_trace (download_cameras_and_do_health_check options c threads) s)
  = [].
Proof.
  destruct (cycle_phased options c threads s) as (t1 & t2 & -> & H1 & H2).
  assert (E1 : omap sleep_of t1 = []).
  { apply never_sleeps_omap. eapply Forall_impl; [exact H1|]. by intros []. }
  assert (E2 : omap sleep_of t2 = []).
  { apply never_sleeps_omap. eapply Forall_impl; [exact H2|]. by intros []. }
  by rewrite omap_app, E1, E2.
Qed.

Lemma daemon_sleeps options sleep_timer cycles s :
  exists k, k <= cycles
    /\ omap sleep_of (run_trace (daemon options sleep_timer cycles) s)
       = replicate k sleep_timer.
Proof.
  revert s. induction cycles as [|cycles IH]; intros s.
  - by exists 0.
  - cbn [daemon]. unfold run_trace. unfold bind at 1.
    pose proof (cycle_never_sleeps options (client options)
                  (opt_threads options) s) as Hc.
    unfold run_trace in Hc.
    destruct (download_cameras_and_do_health_check _ _ _ s)
      as [[[[]|e] s1] t1]; simpl in Hc.
    + destruct (IH s1) as (k & Hk & E). unfold run_trace in E.
      cbv beta iota zeta delta [bind print emit].
      destruct (daemon options sleep_timer cycles s1) as [[r s2] t2].
      simpl in E. exists (S k). split; [lia|]. cbn [snd].
      rewrite omap_app, Hc. cbn [app omap list_omap sleep_of].
      by rewrite E.
    + exists 0. split; [lia|]. simpl. exact Hc.
Qed.

(** The program pauses only between the cycles of daemon mode, each time
    for the configured number of seconds and at most once per cycle; a
    single-shot run never pauses, and no cycle pauses on its own. *)
Theorem sleeps_only_between_daemon_cycles (cycles : nat)
    (options : Options) (s : state) :
  exists k,
    k <= (if opt_health_check options && opt_daemon options
          then cycles else 0)
    /\ omap sleep_of (run_trace (main cycles options) s)
       = replicate k (opt_sleep_timer options).
Proof.
  unfold main.
  destruct (opt_health_check options); [|by exists 0].
  destruct (opt_daemon options); simpl.
  - destruct (daemon_sleeps options (opt_sleep_timer options) cycles s)
      as (k & Hk & E).
    exists k. split; [done|].
    unfold run_trace in *. unfold bind, print, emit.
    destruct (daemon options (opt_sleep_timer options) cycles s)
      as [[r s2] t2]. simpl in *. exact E.
  - exists 0. split; [done|]. apply cycle_never_sleeps.
Qed.

Lemma cycle_fails_on_absent_listing options c threads s :
  absent_answer
    (fst (session_get (self_rtsp_backend_url c ++ "/cameras/ids") (world s)))
    = true ->
  exists w' msgs,
    download_cameras_and_do_health_check options c threads s =
      (Raise (TypeError "object is not iterable"),
       State w' (files s),
       ([EvPrint MsgDownloading;
         EvGet (self_rtsp_backend_url c ++ "/cameras/ids")]
        ++ map EvPrint msgs ++ [EvPrint MsgNoneDownloaded])%list).
Proof.
  intros H.
  destruct (get_all_camera_ids_absent c s H) as (w' & msgs & E).
  exists w', msgs.
  unfold download_cameras_and_do_health_check. run_step.
  rewrite E. cbn [truthy None_ negb py_iter]. cbn [app]. reflexivity.
Qed.

(** One failed listing ends the program, in either mode: [main] leaves
    with the [TypeError] of the aborted cycle.  In daemon mode this happens
    before the first pause, so the listing is not tried again. *)
Theorem failed_listing_ends_main (cycles : nat) (options : Options)
    (s : state) :
  opt_health_check options = true ->
  absent_answer
    (fst (session_get (rtsp_backend_url options ++ "/cameras/ids") (world s)))
    = true ->
  run_result (main (S cycles) options) s
    = Raise (TypeError "object is not iterable")
  /\ omap sleep_of (run_trace (main (S cycles) options) s) = []
  /\ omap get_of (run_trace (main (S cycles) options) s)
     = [rtsp_backend_url options ++ "/cameras/ids"].
Proof.
  intros Hhc Habs.
  destruct (cycle_fails_on_absent_listing options (client options)
              (opt_threads options) s Habs) as (w' & msgs & E).
  assert (Hmsgs : forall tail,
             omap sleep_of (map EvPrint msgs ++ tail)%list
               = omap sleep_of tail
             /\ omap get_of (map EvPrint msgs ++ tail)%list
                = omap get_of tail).
  { intros tail. clear. induction msgs as [|m msgs IH]; [done|]. exact IH. }
  unfold main. rewrite Hhc.
  destruct (opt_daemon options); cbn [daemon];
    unfold run_result, run_trace;
    cbv beta iota zeta delta [bind print emit]; rewrite E;
    cbn [fst snd app omap list_omap sleep_of get_of];
    destruct (Hmsgs [EvPrint MsgNoneDownloaded]) as [-> ->]; done.
Qed.

End CyclePhases.

Section OutputDirectory.
Context `{RT : Runtime}.
Local Open Scope py_scope.

Lemma writes_within_weaken {A} (P P' : string -> Prop) (m : M A) :
  (forall path, P path -> P' path) -> writes_within P m -> writes_within P' m.
Proof. intros HP Hm s path Hnot. apply Hm. intros H. by apply Hnot, HP. Qed.

Lemma writes_within_print P msg : writes_within P (print msg).
Proof. apply writes_within_emit. Qed.

Lemma writes_within_get_camera P self camera_id :
  writes_within P (RtspBackendClient.get_camera self camera_id None_).
Proof.
  intros s path _.
  destruct (get_camera_run self camera_id None_ s) as (msgs & E).
  { simpl. apply andb_false_r. }
  unfold run_state. by rewrite E.
Qed.

Lemma writes_within_get_all_camera_ids P self :
  writes_within P (RtspBackendClient.get_all_camera_ids self).
Proof.
  intros s path _.
  destruct (get_all_camera_ids_run self s) as (msgs & E).
  unfold run_state. by rewrite E.
Qed.

Lemma writes_within_fetch_from P self n i camera_ids cameras :
  writes_within P (fetch_from self n i camera_ids cameras).
Proof.
  revert i cameras.
  induction camera_ids as [|camera_id rest IH]; intros i cameras; simpl.
  - apply writes_within_ret.
  - apply writes_within_bind; [apply writes_within_print | intros _].
    apply writes_within_bind; [apply writes_within_get_camera | intros camera].
    apply IH.
Qed.

Lemma writes_within_report_line P is_updated camera i n :
  writes_within P (report_line is_updated camera i n).
Proof.
  unfold report_line.
  repeat (apply writes_within_bind; [apply writes_within_lift | intros]).
  destruct (truthy is_updated); apply writes_within_print.
Qed.

Lemma health_check_writes_artifacts options self camera :
  writes_within (artifact_of (self_output_dir self))
                (RtspBackendClient.health_check options self camera).
Proof.
  eapply writes_within_weaken; [|apply health_check_writes_within].
  intros path [-> | ->]; exists (py_str (field camera "cameraId"));
    [left | right]; reflexivity.
Qed.

Lemma health_check_from_writes_artifacts options n i cameras :
  writes_within (artifact_of (output_dir options))
                (health_check_from options n i cameras).
Proof.
  revert i. induction cameras as [|camera rest IH]; intros i; simpl.
  - apply writes_within_ret.
  - apply writes_within_bind;
      [apply (health_check_writes_artifacts options (client options))
      | intros u].
    apply writes_within_bind; [apply writes_within_report_line | intros _].
    apply IH.
Qed.

Lemma cycle_writes_artifacts options threads :
  writes_within (artifact_of (output_dir options))
    (download_cameras_and_do_health_check options (client options) threads).
Proof.
  unfold download_cameras_and_do_health_check.
  apply writes_within_bind; [apply writes_within_print | intros _].
  apply writes_within_bind;
    [apply writes_within_get_all_camera_ids | intros camera_ids].
  apply writes_within_bind;
    [destruct (negb (truthy camera_ids));
       [apply writes_within_print
       | apply writes_within_bind;
           [apply writes_within_lift | intros; apply writes_within_print]]
    | intros _].
  apply writes_within_bind; [apply writes_within_lift | intros ids].
  apply writes_within_bind; [apply writes_within_fetch_from | intros cameras].
  destruct cameras; [apply writes_within_print|].
  unfold health_check.
  apply writes_within_bind; [apply writes_within_print | intros _].
  apply health_check_from_writes_artifacts.
Qed.

Lemma daemon_writes_artifacts options sleep_timer cycles :
  writes_within (artifact_of (output_dir options))
                (daemon options sleep_timer cycles).
Proof.
  induction cycles as [|cycles IH]; simpl.
  - apply writes_within_ret.
  - apply writes_within_bind; [apply cycle_writes_artifacts | intros _].
    apply writes_within_bind; [apply writes_within_print | intros _].
    apply writes_within_bind; [apply writes_within_emit | intros _].
    apply IH.
Qed.

(** However long the program runs and whatever it meets, the only files it
    creates or changes have a path of the form [<output>/<name>.jpg] or
    [<output>/<name>.json]; every other path holds at the end what it held
    at the start. *)
Theorem main_writes_only_artifacts (cycles : nat) (options : Options)
    (s : state) (path : string) :
  ~ artifact_of (output_dir options) path ->
  files (run_state (main cycles options) s) !! path = files s !! path.
Proof.
  revert s path. change (writes_within (artifact_of (output_dir options))
                           (main cycles options)).
  unfold main.
  destruct (opt_health_check options); [|apply writes_within_ret].
  destruct (opt_daemon options).
  - apply writes_within_bind; [apply writes_within_print | intros _].
    apply daemon_writes_artifacts.
  - apply cycle_writes_artifacts.
Qed.

End OutputDirectory.

Section ProbeCount.
Context `{RT : Runtime}.
Local Open Scope py_scope.

Lemma trace_bind {A B} (m : M A) (k : A -> M B) s :
  run_trace (bind m k) s =
    (run_trace m s ++
     match run_result m s with
     | Ok a => run_trace (k a) (run_state m s)
     | Raise _ => []
     end)%list.
Proof.
  unfold run_trace, run_result, run_state, bind.
  destruct (m s) as [[[a|e] s1] t1]; simpl.
  - by destruct (k a s1) as [[r s2] t2].
  - by rewrite app_nil_r.
Qed.

Lemma asks_only_no_capture (t : list event) :
  Forall asks_only t -> omap capture_of t = [].
Proof.
  induction 1 as [|ev t Hev _ IH]; [done|]. by destruct ev.
Qed.

Lemma probes_only_no_get (t : list event) :
  Forall probes_only t -> omap get_of t = [].
Proof.
  induction 1 as [|ev t Hev _ IH]; [done|]. by destruct ev.
Qed.

Lemma health_check_at_most_one_probe options self camera s :
  length (omap capture_of
            (run_trace (RtspBackendClient.health_check options self camera) s))
  <= 1.
Proof.
  destruct (has_field camera "rtspUrl") eqn:Hurl.
  - destruct (health_check_one_probe options self camera s Hurl)
      as (r & s1 & t & E & Hq).
    unfold run_trace. rewrite E. destruct (quiet_omap t Hq) as [Hc _].
    cbn [snd omap list_omap capture_of]. by rewrite Hc.
  - unfold has_field in Hurl. unfold RtspBackendClient.health_check, run_trace.
    destruct (subscript camera "rtspUrl") as [u|e]; [discriminate|].
    simpl. lia.
Qed.

Lemma report_line_no_capture is_updated camera i n s :
  omap capture_of (run_trace (report_line is_updated camera i n) s) = [].
Proof.
  apply asks_only_no_capture. revert s.
  change (emits asks_only (report_line is_updated camera i n)).
  unfold report_line. emits_walk.
Qed.

Lemma health_check_from_probes_at_most options n i cameras s :
  length (omap capture_of (run_trace (health_check_from options n i cameras) s))
  <= length cameras.
Proof.
  revert i s. induction cameras as [|camera rest IH]; intros i s; [done|].
  cbn [health_check_from]. rewrite trace_bind, omap_app, length_app.
  pose proof (health_check_at_most_one_probe options (client options) camera s).
  destruct (run_result _ s) as [u|e]; [|simpl; lia].
  rewrite trace_bind, omap_app, length_app, report_line_no_capture.
  destruct (run_result _ _) as [[]|e]; simpl; [|lia].
  specialize (IH (S i)
    (run_state (report_line u camera i n)
       (run_state (RtspBackendClient.health_check options (client options)
                     camera) s))).
  lia.
Qed.

Lemma bind_fail {A B} (m : M A) (k : A -> M B) s e s1 t1 :
  m s = (Raise e, s1, t1) -> bind m k s = (Raise e, s1, t1).
Proof. intros E. unfold bind. by rewrite E. Qed.

Lemma omap_prints {X} (f : event -> option X) msgs :
  (forall msg, f (EvPrint msg) = None) -> omap f (map EvPrint msgs) = [].
Proof.
  intros Hf. induction msgs as [|m msgs IH]; [done|]. simpl. by rewrite Hf.
Qed.

(** In every cycle the probes are fewer than the GETs: apart from the
    listing, there is a fetched record for every probe attempt, so the
    cycle never probes more cameras than it has fetched records. *)
Theorem cycle_probes_only_what_it_fetched options c threads s :
  length (omap capture_of
            (run_trace (download_cameras_and_do_health_check options c threads)
                       s))
  < length (omap get_of
              (run_trace
                 (download_cameras_and_do_health_check options c threads) s)).
Proof.
  unfold download_cameras_and_do_health_check.
  destruct (get_all_camera_ids_run c s) as (msgs & E).
  set (v := listed _) in E. set (s1 := State _ _) in E.
  pose proof (omap_prints capture_of msgs (fun _ => eq_refl)) as Hm1.
  pose proof (omap_prints get_of msgs (fun _ => eq_refl)) as Hm2.
  unfold run_trace.
  rewrite (bind_ok (print MsgDownloading) _ s tt s [EvPrint MsgDownloading]
             eq_refl).
  unfold run_trace. rewrite (bind_ok _ _ s v s1 _ E).
  cbn [snd app omap list_omap capture_of get_of]. rewrite !omap_app, Hm1, Hm2.
  cbn [app length].
  set (announce := if negb (truthy v) then _ else _).
  assert (Ha : emits asks_only announce) by (subst announce; emits_walk).
  assert (Ha' : emits probes_only announce) by (subst announce; emits_walk).
  pose proof (asks_only_no_capture _ (Ha s1)) as Ha1.
  pose proof (probes_only_no_get _ (Ha' s1)) as Ha2.
  unfold run_trace in *.
  destruct (announce s1) as [[[[]|e] s2] ta] eqn:Ea; simpl in Ha1, Ha2;
    [rewrite (bind_ok _ _ s1 tt s2 ta Ea)
    |rewrite (bind_fail _ _ s1 e s2 ta Ea); cbn [snd]; rewrite Ha1, Ha2;
     simpl; lia].
  cbn [snd]. rewrite !omap_app, Ha1, Ha2. cbn [app]. unfold run_trace.
  destruct (py_iter v) as [ids|e]; [|simpl; lia].
  cbn [lift]. rewrite bind_ret_l.
  destruct (fetch_from_run c (length ids) 0 ids [] s2)
    as (new & Hr & Hnew & Hlen & Hget & _).
  pose proof (asks_only_no_capture _
                (fetch_from_asks_only c (length ids) 0 ids [] s2)) as Hcap.
  pose proof (run_eta (fetch_from c (length ids) 0 ids []) s2) as Ef.
  rewrite Hr in Ef. cbn [app] in Ef.
  rewrite (bind_ok _ _ s2 new _ _ Ef).
  cbn [snd]. rewrite !omap_app, Hcap, Hget. cbn [app].
  rewrite length_app, length_map.
  set (s3 := run_state _ s2).
  destruct new as [|camera rest].
  - simpl. lia.
  - pose proof (probes_only_no_get _
        (health_check_from_probes_only options
           (length (camera :: rest)) 0 (camera :: rest) s3)) as Hg.
    pose proof (health_check_from_probes_at_most options
                  (length (camera :: rest)) 0 (camera :: rest) s3) as Hp.
    unfold health_check. rewrite !trace_bind.
    cbn [run_result run_trace run_state print emit fst snd].
    cbn [app omap list_omap capture_of get_of].
    rewrite Hg. simpl in *. lia.
Qed.

End ProbeCount.

Section CompletedVerdict.
Context `{RT : Runtime}.
Local Open Scope py_scope.

Ltac returns_nothing :=
  let H := fresh in
  let Ht := fresh in
  intros H;
  first [ discriminate H
        | injection H as <-; intros Ht; discriminate Ht ].

Ltac reported :=
  match goal with
  | |- context [RtspBackendClient.update_camera ?o ?c ?d ?s1] =>
      let r := fresh "r" in
      let w' := fresh "w'" in
      let msgs := fresh "msgs" in
      let E := fresh "E" in
      destruct (update_camera_run o c d s1) as (r & w' & msgs & E);
      rewrite E; reduce; intros _ _;
      eexists _, _; cbn [In app];
      repeat (first [left; reflexivity | right])
  end.

(** [health_check] returns something truthy, which is what makes the loop
    print "has been completed", only when a report was sent to the
    inventory.  A probe, a file operation or a lookup that fails yields
    [None], and the camera is printed as failed. *)
Theorem truthy_result_means_report_sent (options : Options)
    (self : backend_client) (camera : json) (s : state) (r : json) :
  run_result (RtspBackendClient.health_check options self camera) s = Ok r ->
  truthy r = true ->
  exists url body,
    In (EvPut url body)
       (run_trace (RtspBackendClient.health_check options self camera) s).
Proof.
  unfold RtspBackendClient.health_check, RtspBackendClient.artifact_path,
    RtspBackendClient.camera_to_save.
  destruct (subscript camera "rtspUrl") as [u|e]; run_step;
    [|returns_nothing].
  destruct (capture_read u (world s)) as [[[[] fr]|e] w1]; reduce;
    [| |returns_nothing].
  - destruct (subscript camera "cameraId") as [id|e]; reduce;
      [|returns_nothing].
    destruct (cv2_imwrite _ fr w1) as [[written|e] w2]; reduce;
      [|returns_nothing].
    destruct written; reduce;
      (destruct (_ !! _) as [contents|]; reduce; [|returns_nothing];
       destruct (open_rb_fault _ _) as [[e|] w3]; reduce; [returns_nothing|];
       destruct (open_w_fault _ _) as [[e|] w4]; reduce; [returns_nothing|];
       simpl (subscript (JObj _) _); reduce;
       destruct (subscript camera "countryCode") as [cc|e]; reduce;
         [|returns_nothing];
       destruct (subscript camera "countryName") as [cn|e]; reduce;
         [|returns_nothing];
       destruct (subscript camera "city") as [city|e]; reduce;
         [|returns_nothing];
       destruct (write_fault _ _) as [[e|] w5]; reduce; [returns_nothing|];
       reported).
  - destruct (subscript camera "labels") as [labels|e]; reduce;
      [|returns_nothing].
    destruct (subscript camera "cameraId") as [id|e]; reduce;
      [|returns_nothing].
    destruct (open_w_fault _ _) as [[e|] w4]; reduce; [returns_nothing|].
    destruct (subscript camera "countryCode") as [cc|e]; reduce;
      [|returns_nothing].
    destruct (subscript camera "countryName") as [cn|e]; reduce;
      [|returns_nothing].
    destruct (subscript camera "city") as [city|e]; reduce;
      [|returns_nothing].
    destruct (write_fault _ _) as [[e|] w5]; reduce; [returns_nothing|].
    reported.
Qed.

End CompletedVerdict.

Section PassedClient.
Context `{RT : Runtime}.
Local Open Scope py_scope.

Lemma fetch_from_same_backend c1 c2 n i camera_ids cameras s :
  self_rtsp_backend_url c1 = self_rtsp_backend_url c2 ->
  fetch_from c1 n i camera_ids cameras s =
  fetch_from c2 n i camera_ids cameras s.
Proof.
  destruct c1 as [u d1], c2 as [u2 d2]. simpl. intros <-.
  revert i cameras s.
  induction camera_ids as [|camera_id rest IH]; intros i cameras s.
  - reflexivity.
  - cbn [fetch_from]. apply bind_ext. intros _ s1.
    apply bind_cong; [reflexivity | intros camera s2; apply IH].
Qed.

(** Of the client handed to the cycle only the backend URL matters: it is
    used for the listing and the fetches.  Probing, persisting and
    reporting go through the global client, so the output directory of the
    client passed in is never used. *)
Theorem cycle_ignores_output_dir_of_passed_client (options : Options)
    (c1 c2 : backend_client) (threads : json) (s : state) :
  self_rtsp_backend_url c1 = self_rtsp_backend_url c2 ->
  download_cameras_and_do_health_check options c1 threads s =
  download_cameras_and_do_health_check options c2 threads s.
Proof.
  intros H. unfold download_cameras_and_do_health_check.
  apply bind_ext. intros _ s1.
  apply bind_cong.
  { intros s0. destruct c1 as [u d1], c2 as [u2 d2]. simpl in H. subst u2.
    reflexivity. }
  intros camera_ids s2. apply bind_ext. intros _ s3.
  apply bind_ext. intros ids s4.
  apply bind_cong; [|reflexivity].
  intros s0. by apply fetch_from_same_backend.
Qed.

End PassedClient.

(** * More concrete runs *)

Section MoreRuns.
Import Scripted.

Lemma get_camera_outcome_witness :
  exists msgs,
    RtspBackendClient.get_camera (client (opts (JNum 50))) (JNum 2) None_
        (start refused_fetch)
    = (Ok None_, start silent,
       EvGet "http://10.8.0.1:8080/cameras?id=2" :: map EvPrint msgs).
Proof.
  apply (get_camera_outcome (client (opts (JNum 50))) (JNum 2) None_
           (start refused_fetch)).
  reflexivity.
Defined.


Lemma health_check_raises_iff_no_rtsp_url_witness :
  RtspBackendClient.health_check (opts (JNum 50)) (client (opts (JNum 50)))
      (JObj [("cameraId", JNum 1)]) (start silent)
  = (Raise (KeyError "rtspUrl"), start silent, []).
Proof.
  destruct (health_check_raises_iff_no_rtsp_url (opts (JNum 50))
              (client (opts (JNum 50))) (JObj [("cameraId", JNum 1)])
              (start silent)) as [_ H].
  apply H. reflexivity.
Defined.

(** The first record has no status: it is probed, then the loop dies and
    camera 3 is never looked at. *)
Lemma unprintable_record_aborts_loop_witness :
  is_raise (run_result
              (health_check (opts (JNum 50))
                 [JObj [("cameraId", JNum 1); ("rtspUrl", JStr "rtsp://a")];
                  camera 3 "rtsp://c"])
              (start silent)) = true
  /\ omap capture_of
       (run_trace
          (health_check (opts (JNum 50))
             [JObj [("cameraId", JNum 1); ("rtspUrl", JStr "rtsp://a")];
              camera 3 "rtsp://c"])
          (start silent))
     = [JStr "rtsp://a"]
  /\ omap verdict_of
       (run_trace
          (health_check (opts (JNum 50))
             [JObj [("cameraId", JNum 1); ("rtspUrl", JStr "rtsp://a")];
              camera 3 "rtsp://c"])
          (start silent))
     = [].
Proof.
  apply (unprintable_record_aborts_loop (opts (JNum 50))
           (JObj [("cameraId", JNum 1); ("rtspUrl", JStr "rtsp://a")])
           [camera 3 "rtsp://c"] (start silent));
    reflexivity.
Defined.

(** Camera 3 reads no frame, yet its verdict line shows the stored
    status [OPEN]. *)
Lemma verdict_lines_show_stored_status_witness :
  omap verdict_shown
    (run_trace (health_check (opts (JNum 50)) [camera 3 "rtsp://c"])
       (start silent))
  = [(JNum 3, JStr "rtsp://c", JStr "OPEN")].
Proof.
  apply (verdict_lines_show_stored_status (opts (JNum 50))
           [camera 3 "rtsp://c"] (start silent)).
  repeat constructor.
Defined.

Lemma health_check_touches_only_own_artifacts_witness :
  files (run_state
           (RtspBackendClient.health_check (opts (JNum 50))
              (client (opts (JNum 50))) (camera 1 "rtsp://a"))
           (start frame_then_nothing)) !! "health-check/notes.txt"
  = None.
Proof.
  apply (health_check_touches_only_own_artifacts (opts (JNum 50))
           (client (opts (JNum 50))) (camera 1 "rtsp://a")
           (start frame_then_nothing) "health-check/notes.txt");
    intros H; vm_compute in H; discriminate H.
Defined.

Lemma probe_spares_other_cameras_witness :
  files (run_state
           (RtspBackendClient.health_check (opts (JNum 50))
              (client (opts (JNum 50))) (camera 3 "rtsp://c"))
           (start_with frame_then_nothing Faulty.earlier_image))
    !! "health-check/1.jpg"
  = Some "JPEG:F1".
Proof.
  destruct (probe_spares_other_cameras (opts (JNum 50))
              (client (opts (JNum 50)))
              (camera 1 "rtsp://a") (camera 3 "rtsp://c")
              (start_with frame_then_nothing Faulty.earlier_image)) as [H _].
  - intros H. vm_compute in H. discriminate H.
  - exact H.
Defined.

Lemma missing_location_field_leaves_empty_metadata_witness :
  exists e w',
    RtspBackendClient.health_check (opts (JNum 50)) (client (opts (JNum 50)))
        (Faulty.bare_camera 1 "rtsp://a") (start frame_then_nothing)
    = (Ok None_,
       State w' (<["health-check/1.json" := EmptyString]>
                 (<["health-check/1.jpg" := "JPEG:F1"]> ∅)),
       [EvCapture (JStr "rtsp://a");
        EvImwrite "health-check/1.jpg" "F1";
        EvOpenRead "health-check/1.jpg";
        EvOpenWrite "health-check/1.json";
        EvPrint (MsgExn e)]).
Proof.
  apply (missing_location_field_leaves_empty_metadata (RT := runtime)
           (opts (JNum 50)) (client (opts (JNum 50)))
           (Faulty.bare_camera 1 "rtsp://a") "F1" (start frame_then_nothing)).
  - exact scripted_disk_healthy.
  - reflexivity.
  - reflexivity.
  - reflexivity.
Defined.

Lemma report_follows_metadata_witness :
  exists st,
    (st = "OPEN" \/ st = "UNCONNECTED")
    /\ subscript (unconnected_report (camera 3 "rtsp://c")) "status"
       = Ok (JStr st)
    /\ files (run_state
                (RtspBackendClient.health_check (opts (JNum 50))
                   (client (opts (JNum 50))) (camera 3 "rtsp://c"))
                (start silent)) !! "health-check/3.json"
       = Some (json_dumps (metadata (camera 3 "rtsp://c") st)).
Proof.
  apply (report_follows_metadata (opts (JNum 50)) (client (opts (JNum 50)))
           (camera 3 "rtsp://c") (start silent)
           "http://10.8.0.1:8080/cameras/import"
           (unconnected_report (camera 3 "rtsp://c"))).
  vm_compute. tauto.
Defined.

Lemma empty_listing_completes_cycle_witness :
  download_cameras_and_do_health_check (opts (JNum 50))
      (client (opts (JNum 50))) (JNum 50) (start empty_inventory)
  = (Ok tt, start silent,
     [EvPrint MsgDownloading;
      EvGet "http://10.8.0.1:8080/cameras/ids";
      EvPrint MsgNoneDownloaded;
      EvPrint MsgNonePassed]).
Proof.
  apply (empty_listing_completes_cycle (opts (JNum 50))
           (client (opts (JNum 50))) (JNum 50) (start empty_inventory)).
  reflexivity.
Defined.

(** The daemon, allowed three cycles, against an inventory that cannot be
    reached: it stops in the first one. *)
Lemma failed_listing_ends_main_witness :
  run_result
    (main 3 {| opt_rtsp_backend_url := DEFAULT_RTSP_BACKEND_URL;
               opt_health_check := true;
               opt_daemon := true;
               opt_sleep_timer := DEFAULT_SLEEP_TIMER_IN_SECONDS;
               opt_output := DEFAULT_OUTPUT_DIR;
               opt_threads := JNum DEFAULT_THREAD_LIMIT |})
    (start silent)
  = Raise (TypeError "object is not iterable").
Proof.
  destruct (failed_listing_ends_main 2
              {| opt_rtsp_backend_url := DEFAULT_RTSP_BACKEND_URL;
                 opt_health_check := true;
                 opt_daemon := true;
                 opt_sleep_timer := DEFAULT_SLEEP_TIMER_IN_SECONDS;
                 opt_output := DEFAULT_OUTPUT_DIR;
                 opt_threads := JNum DEFAULT_THREAD_LIMIT |}
              (start silent)) as [H _].
  - reflexivity.
  - reflexivity.
  - exact H.
Defined.

Lemma main_writes_only_artifacts_witness :
  files (run_state (main 1 (opts (JNum 50))) (start one_two_three))
    !! "elsewhere/1.jpg"
  = None.
Proof.
  apply (main_writes_only_artifacts 1 (opts (JNum 50)) (start one_two_three)
           "elsewhere/1.jpg").
  intros [name [H|H]]; discriminate H.
Defined.

Lemma truthy_result_means_report_sent_witness :
  exists url body,
    In (EvPut url body)
       (run_trace
          (RtspBackendClient.health_check (opts (JNum 50))
             (client (opts (JNum 50))) (camera 1 "rtsp://a"))
          (start (Script [] [ok_json (camera 1 "rtsp://a")]
                         [Ok (true, "F1")]))).
Proof.
  apply (truthy_result_means_report_sent (opts (JNum 50))
           (client (opts (JNum 50))) (camera 1 "rtsp://a")
           (start (Script [] [ok_json (camera 1 "rtsp://a")]
                          [Ok (true, "F1")]))
           (camera 1 "rtsp://a"));
    reflexivity.
Defined.

Lemma cycle_ignores_output_dir_of_passed_client_witness :
  download_cameras_and_do_health_check (opts (JNum 50))
      (client (opts (JNum 50))) (JNum 50) (start one_two_three)
  = download_cameras_and_do_health_check (opts (JNum 50))
      (BackendClient DEFAULT_RTSP_BACKEND_URL "elsewhere") (JNum 50)
      (start one_two_three).
Proof.
  apply (cycle_ignores_output_dir_of_passed_client (opts (JNum 50))
           (client (opts (JNum 50)))
           (BackendClient DEFAULT_RTSP_BACKEND_URL "elsewhere") (JNum 50)
           (start one_two_three)).
  reflexivity.
Defined.

End MoreRuns.

Section FaultyRuns.
Import Faulty.

(** Camera 1 delivers frame F2, [cv2.imwrite] does not store it, and the
    inventory is sent the image of the earlier cycle. *)
Lemma unwritten_image_is_replaced_by_earlier_one_witness :
  exists r w' msgs,
    RtspBackendClient.health_check (Scripted.opts (JNum 50))
        (client (Scripted.opts (JNum 50))) (Scripted.camera 1 "rtsp://a")
        (start_with frame_not_written earlier_image)
    = (Ok r,
       State w' (<["health-check/1.json" := "status=OPEN"]> earlier_image),
       ([EvCapture (JStr "rtsp://a");
         EvImwrite "health-check/1.jpg" "F2";
         EvOpenRead "health-check/1.jpg";
         EvOpenWrite "health-check/1.json";
         EvDump "health-check/1.json"
                (metadata (Scripted.camera 1 "rtsp://a") "OPEN");
         EvPut "http://10.8.0.1:8080/cameras/import"
               (JObj [("status", JStr "OPEN");
                      ("url", JStr "rtsp://a");
                      ("base64ImageData", JStr "b64:JPEG:F1")])]
        ++ map EvPrint msgs)%list).
Proof.
  apply (unwritten_image_is_replaced_by_earlier_one (RT := runtime)
           (Scripted.opts (JNum 50)) (client (Scripted.opts (JNum 50)))
           (Scripted.camera 1 "rtsp://a") "F2"
           (start_with frame_not_written earlier_image));
    reflexivity.
Defined.

End FaultyRuns.
